(** * Peer synchronisation of Computer B (b_hard.py)

    A shallow embedding of the two network channels of the client station
    and of the stage coordinator that drives them:

    - the gaze channel ([send_gaze_data], [receive_gaze_data]) with its
      gating flag [GAZE_SHARING_ACTIVE];
    - the control channel ([RobustSyncClient]: [send_message],
      [_receive_messages], [wait_for_message], [get_message]);
    - the stage coordinator ([run_synchronized_experiment]).

    Python dictionaries are finite maps with string keys; the mutable
    globals and the attributes of the client object are fields of explicit
    state records; everything the code reads from the outside world (the
    clocks, the keyboard, incoming datagrams, the failures of [sendto]) is
    an explicit input.  Floating point numbers are represented by
    rationals: no claim below depends on rounding. *)

From Stdlib Require Import QArith Lqa.
From stdpp Require Import gmap strings list fin_maps.

Open Scope string_scope.
Open Scope list_scope.
Open Scope nat_scope.

(** ** Values *)

Set Warnings "-register-all".

(** What [json.loads] can return and what [json.dumps] accepts.  The
    address tuple that [recvfrom] returns is represented as a two-element
    [JArr]. *)
Inductive json : Type :=
  | JNull
  | JBool (b : bool)
  | JNum (q : Q)
  | JStr (s : string)
  | JArr (l : list json)
  | JObj (o : gmap string json).

(** A Python [dict] with string keys. *)
Abbreviation dict := (gmap string json).

(** [v == s] for a string literal [s]: only a [str] can be equal to it. *)
Definition eq_str (v : option json) (s : string) : bool :=
  match v with
  | Some (JStr s') => String.eqb s' s
  | _ => false
  end.

(** [d.update(e)]: the keys of [e] overwrite, the other keys stay. *)
Definition dict_update (d e : dict) : dict := e ∪ d.

(** Outcome of a [sendto] on a datagram socket. *)
Inductive outcome : Type := Ok | Raise.

(** A datagram socket seen from the sender: [script] lists the outcomes of
    the coming [sendto] calls (once it is used up the calls succeed),
    [wire] the datagrams handed to the network so far, oldest first. *)
Record udp_socket : Type := {
  script : list outcome;
  wire : list dict
}.

Definition sendto (pkt : dict) (s : udp_socket) : outcome * udp_socket :=
  match script s with
  | Raise :: rest => (Raise, {| script := rest; wire := wire s |})
  | Ok :: rest => (Ok, {| script := rest; wire := wire s ++ [pkt] |})
  | [] => (Ok, {| script := []; wire := wire s ++ [pkt] |})
  end.

(** What one [recvfrom] call of a receive loop yields: the socket timeout,
    another exception, or a datagram, given by what [json.loads] makes of
    it ([None] when decoding raises). *)
Inductive recv : Type :=
  | RecvTimeout
  | RecvError
  | RecvData (payload : option json).

(** ** Gaze channel *)

Module Gaze.

(** [network_stats] *)
Record stats : Type := {
  sent : nat;
  received : nat;
  errors : nat
}.

(** The module-level globals of the gaze channel. *)
Record globals : Type := {
  GAZE_SHARING_ACTIVE : bool;
  network_stats : stats;
  remote_gaze_data : dict;
  send_socket : udp_socket
}.

Definition initial_remote : dict :=
  <["x" := JNum 0]> (<["y" := JNum 0]>
    (<["valid" := JBool false]> (<["timestamp" := JNum 0]> ∅))).

Definition initial (sock : udp_socket) : globals :=
  {| GAZE_SHARING_ACTIVE := false;
     network_stats := {| sent := 0; received := 0; errors := 0 |};
     remote_gaze_data := initial_remote;
     send_socket := sock |}.

Definition set_sharing (b : bool) (g : globals) : globals :=
  {| GAZE_SHARING_ACTIVE := b;
     network_stats := network_stats g;
     remote_gaze_data := remote_gaze_data g;
     send_socket := send_socket g |}.

Definition count_sent (g : globals) (s : udp_socket) : globals :=
  {| GAZE_SHARING_ACTIVE := GAZE_SHARING_ACTIVE g;
     network_stats := {| sent := S (sent (network_stats g));
                         received := received (network_stats g);
                         errors := errors (network_stats g) |};
     remote_gaze_data := remote_gaze_data g;
     send_socket := s |}.

Definition count_error (g : globals) (s : udp_socket) : globals :=
  {| GAZE_SHARING_ACTIVE := GAZE_SHARING_ACTIVE g;
     network_stats := {| sent := sent (network_stats g);
                         received := received (network_stats g);
                         errors := S (errors (network_stats g)) |};
     remote_gaze_data := remote_gaze_data g;
     send_socket := s |}.

(** The sample that [send_gaze_data] builds; [now] is [time.time()]. *)
Definition sample (gaze_x gaze_y : Q) (valid : bool) (now : Q) : dict :=
  <["x" := JNum gaze_x]> (<["y" := JNum gaze_y]>
    (<["valid" := JBool valid]> (<["timestamp" := JNum now]>
      (<["computer" := JStr "B"]> ∅)))).

(** [send_gaze_data(gaze_x, gaze_y, valid)] *)
Definition send_gaze_data (gaze_x gaze_y : Q) (valid : bool) (now : Q)
    (g : globals) : globals :=
  if negb (GAZE_SHARING_ACTIVE g) then g
  else
    match sendto (sample gaze_x gaze_y valid now) (send_socket g) with
    | (Ok, s) => count_sent g s
    | (Raise, s) => count_error g s
    end.

(** One call as data, to speak of sequences of calls. *)
Record call : Type := {
  call_x : Q;
  call_y : Q;
  call_valid : bool;
  call_now : Q
}.

Definition send_all (cs : list call) (g : globals) : globals :=
  foldl (fun g c => send_gaze_data (call_x c) (call_y c) (call_valid c)
                      (call_now c) g) g cs.

(** Body of the [while True] loop of [receive_gaze_data] for one
    [recvfrom]. *)
Definition receive_gaze_data_step (r : recv) (g : globals) : globals :=
  match r with
  | RecvTimeout => g
  | RecvError => count_error g (send_socket g)
  | RecvData None => count_error g (send_socket g)
  | RecvData (Some (JObj gaze_info)) =>
      if eq_str (gaze_info !! "computer") "A" then
        {| GAZE_SHARING_ACTIVE := GAZE_SHARING_ACTIVE g;
           network_stats := {| sent := sent (network_stats g);
                               received := S (received (network_stats g));
                               errors := errors (network_stats g) |};
           remote_gaze_data := dict_update (remote_gaze_data g) gaze_info;
           send_socket := send_socket g |}
      else g
  | RecvData (Some _) =>
      (* [gaze_info.get] raises AttributeError on a value that is no dict *)
      count_error g (send_socket g)
  end.

(** The receive loop on a finite run of [recvfrom] results. *)
Definition receive_gaze_data (rs : list recv) (g : globals) : globals :=
  foldl (fun g r => receive_gaze_data_step r g) g rs.

(** Whether a [recvfrom] result is a dictionary that names 'A' as its
    origin. *)
Definition from_A (r : recv) : bool :=
  match r with
  | RecvData (Some (JObj gaze_info)) => eq_str (gaze_info !! "computer") "A"
  | _ => false
  end.

End Gaze.

(** ** Control channel *)

Module Sync.

(** What the client does to the outside, in the order it happens. *)
Inductive event : Type :=
  | EvPut (message : dict)                 (* [message_queue.put] *)
  | EvSendto (pkt : dict) (o : outcome)    (* one [sendto] call *)
  | EvSleep (seconds : Q).                 (* [time.sleep] *)

(** The attributes of a [RobustSyncClient]; [socket] is [None] until
    [start_client], [message_queue] is the FIFO [queue.Queue], oldest
    first. *)
Record RobustSyncClient : Type := {
  socket : option udp_socket;
  running : bool;
  message_queue : list dict;
  closed : bool;
  log : list event
}.

(** [RobustSyncClient(...)] *)
Definition new : RobustSyncClient :=
  {| socket := None; running := false; message_queue := [];
     closed := false; log := [] |}.

(** [start_client()]: [s] is the bound socket. *)
Definition start_client (s : udp_socket) (c : RobustSyncClient)
    : RobustSyncClient :=
  {| socket := Some s; running := true;
     message_queue := message_queue c; closed := closed c; log := log c |}.

Definition put (message : dict) (c : RobustSyncClient) : RobustSyncClient :=
  {| socket := socket c; running := running c;
     message_queue := message_queue c ++ [message];
     closed := closed c; log := log c ++ [EvPut message] |}.

Definition with_queue (q : list dict) (c : RobustSyncClient)
    : RobustSyncClient :=
  {| socket := socket c; running := running c; message_queue := q;
     closed := closed c; log := log c |}.

(** [data or {}] *)
Definition or_empty (data : option dict) : dict :=
  match data with
  | None => ∅
  | Some d => if Nat.eqb (size d) 0 then ∅ else d
  end.

(** The dictionary that [send_message] serialises; [now] is
    [time.perf_counter()]. *)
Definition envelope (message_type : string) (now : Q) (data : option dict)
    : dict :=
  <["type" := JStr message_type]> (<["timestamp" := JNum now]>
    (<["data" := JObj (or_empty data)]> ∅)).

Definition backoff : Q := 1 # 10.

(** The [for attempt in range(retry_count)] loop of [send_message]. *)
Fixpoint send_loop (retry_count : nat) (message : dict) (s : udp_socket)
    (l : list event) : bool * udp_socket * list event :=
  match retry_count with
  | O => (false, s, l)
  | S n =>
      match sendto message s with
      | (Ok, s') => (true, s', l ++ [EvSendto message Ok])
      | (Raise, s') =>
          send_loop n message s' (l ++ [EvSendto message Raise; EvSleep backoff])
      end
  end.

(** The number of coming [sendto] calls that raise before one succeeds. *)
Fixpoint leading_raises (l : list outcome) : nat :=
  match l with
  | Raise :: l' => S (leading_raises l')
  | _ => 0
  end.

(** The trace of [n] failed attempts: each is a [sendto] that raises and
    the sleep that follows it. *)
Fixpoint failed_attempts (pkt : dict) (n : nat) : list event :=
  match n with
  | O => []
  | S n' => EvSendto pkt Raise :: EvSleep backoff :: failed_attempts pkt n'
  end.

(** [send_message(message_type, data, retry_count)] *)
Definition send_message (message_type : string) (data : option dict)
    (retry_count : nat) (now : Q) (c : RobustSyncClient)
    : bool * RobustSyncClient :=
  match socket c with
  | None => (false, c)
  | Some s =>
      let '(r, s', l') :=
        send_loop retry_count (envelope message_type now data) s (log c) in
      (r, {| socket := Some s'; running := running c;
             message_queue := message_queue c; closed := closed c;
             log := l' |})
  end.

(** One [recvfrom] of the receive thread: what it yields, the sender
    address, and the two readings of [time.perf_counter()] that handling it
    may take (on receipt, and inside the [send_message] of the reply). *)
Record rx : Type := {
  rx_recv : recv;
  rx_addr : json;
  rx_time : Q;
  rx_reply_time : Q
}.

(** The message as enqueued: the decoded dictionary with the two fields
    the loop adds. *)
Definition stamp (i : rx) (message : dict) : dict :=
  <["receipt_time" := JNum (rx_time i)]>
    (<["sender_addr" := rx_addr i]> message).

Definition pong_data : dict := <["client_ready" := JBool true]> ∅.

(** Body of the [while self.running] loop of [_receive_messages]. *)
Definition receive_messages_step (i : rx) (c : RobustSyncClient)
    : RobustSyncClient :=
  match rx_recv i with
  | RecvTimeout => c
  | RecvError => c
  | RecvData None => c
  | RecvData (Some (JObj message)) =>
      let message := stamp i message in
      let c := put message c in
      if eq_str (message !! "type") "ping"
      then (send_message "pong" (Some pong_data) 3 (rx_reply_time i) c).2
      else c
  | RecvData (Some _) =>
      (* item assignment raises TypeError on a value that is no dict *)
      c
  end.

(** [_receive_messages] on a finite run of [recvfrom] results. *)
Fixpoint _receive_messages (rs : list rx) (c : RobustSyncClient)
    : RobustSyncClient :=
  match rs with
  | [] => c
  | i :: rs' =>
      if running c then _receive_messages rs' (receive_messages_step i c)
      else c
  end.

Definition Qltb (x y : Q) : bool := negb (Qle_bool y x).

(** One turn of the [while] loop of [wait_for_message]: the reading of
    [time.perf_counter()] in the loop test, what the receive thread does
    before the [get], and what it does between the [get] and the [put]
    that returns a message of another type. *)
Record tick : Type := {
  tick_now : Q;
  tick_rx : list rx;
  tick_rx_late : list rx
}.

(** The loop test of [wait_for_message] at one turn. *)
Definition in_time (timeout start_time : Q) (tk : tick) : bool :=
  Qltb (tick_now tk - start_time) timeout.

(** A turn during which the receive thread takes nothing in. *)
Definition quiet (tk : tick) : bool :=
  match tick_rx tk, tick_rx_late tk with
  | [], [] => true
  | _, _ => false
  end.

(** [wait_for_message(expected_type, timeout)]; [start_time] is the first
    reading of the clock.  [None] only when the schedule is used up before
    the loop ends. *)
Fixpoint wait_for_message (expected_type : string) (timeout start_time : Q)
    (sched : list tick) (c : RobustSyncClient)
    : option (option dict * RobustSyncClient) :=
  match sched with
  | [] => None
  | tk :: sched' =>
      if in_time timeout start_time tk then
        let c := _receive_messages (tick_rx tk) c in
        match message_queue c with
        | [] => wait_for_message expected_type timeout start_time sched' c
        | message :: rest =>
            let c := with_queue rest c in
            if eq_str (message !! "type") expected_type
            then Some (Some message, c)
            else
              let c := _receive_messages (tick_rx_late tk) c in
              wait_for_message expected_type timeout start_time sched'
                (put message c)
        end
      else Some (None, c)
  end.

(** [get_message(timeout)]; [rs] is what the receive thread does while the
    [get] blocks. *)
Definition get_message (rs : list rx) (c : RobustSyncClient)
    : option dict * RobustSyncClient :=
  let c := _receive_messages rs c in
  match message_queue c with
  | [] => (None, c)
  | message :: rest => (Some message, with_queue rest c)
  end.

(** [close()] *)
Definition close (c : RobustSyncClient) : RobustSyncClient :=
  {| socket := socket c; running := false;
     message_queue := message_queue c; closed := true; log := log c |}.

(** The datagrams of a given type among those handed to the network. *)
Definition sent_of_type (ty : string) (c : RobustSyncClient) : list dict :=
  match socket c with
  | None => []
  | Some s => filter (fun pkt => eq_str (pkt !! "type") ty = true) (wire s)
  end.

(** Whether an event is a [put] on the queue. *)
Definition is_put (e : event) : bool :=
  match e with EvPut _ => true | _ => false end.

(** Whether an event is a [sendto] of a datagram of type [ty], whether it
    succeeded or not. *)
Definition is_attempt (ty : string) (e : event) : bool :=
  match e with
  | EvSendto pkt _ => eq_str (pkt !! "type") ty
  | _ => false
  end.

(** The [sendto] calls made so far for datagrams of type [ty]. *)
Definition attempts (ty : string) (c : RobustSyncClient) : list event :=
  filter (fun e => is_attempt ty e = true) (log c).

End Sync.

(** ** Stage coordinator *)

Module Coordinator.

(** How a piece of [run_synchronized_experiment] ends: it falls through to
    the next statement, it leaves the function, or the inputs given to the
    model are used up while a loop is still turning.  Each carries the
    state reached. *)
Inductive exit : Type :=
  | Return       (* a [return] statement *)
  | Terminate    (* [terminate_task()], which does not come back *)
  | Exception.   (* an exception that nothing catches *)

Inductive flow (A : Type) : Type :=
  | Next (a : A)
  | Leave (how : exit) (a : A)
  | Stuck (a : A).
Arguments Next {A} a.
Arguments Leave {A} how a.
Arguments Stuck {A} a.

Definition flow_state {A : Type} (f : flow A) : A :=
  match f with Next a | Leave _ a | Stuck a => a end.

(** One entry of [data_log]; the spatial layout, which comes from the
    renderer, is left out. *)
Record trial_log : Type := {
  log_trial : json;
  log_target_position : json;
  log_correct_category : json;
  log_client_response : json;
  log_client_rt : json;
  log_first_responder : json;
  log_first_response : json;
  log_trial_score : json;
  log_total_score : json
}.

(** The globals and the local variables of [run_synchronized_experiment].
    Python's [None] is [JNull]; a local that is read through
    ['name' in locals()] or only after it is assigned is [JNull] until
    then; [target_position] is [None] while unbound.  [saved] is the
    table written to disk at the end. *)
Record coordinator : Type := {
  gaze : Gaze.globals;
  sync_client : Sync.RobustSyncClient;
  current_trial : json;
  target_position : option json;
  correct_category : json;
  client_response : json;
  client_rt : json;
  first_responder : json;
  first_response : json;
  target_square_color : string;
  received_server : bool;
  received_client : bool;
  total_score : json;
  data_log : list trial_log;
  saved : option (list trial_log)
}.

Definition set_gaze (v : Gaze.globals) (st : coordinator) : coordinator :=
  {| gaze := v;
     sync_client := sync_client st;
     current_trial := current_trial st;
     target_position := target_position st;
     correct_category := correct_category st;
     client_response := client_response st;
     client_rt := client_rt st;
     first_responder := first_responder st;
     first_response := first_response st;
     target_square_color := target_square_color st;
     received_server := received_server st;
     received_client := received_client st;
     total_score := total_score st;
     data_log := data_log st;
     saved := saved st |}.

Definition set_sync_client (v : Sync.RobustSyncClient) (st : coordinator) : coordinator :=
  {| gaze := gaze st;
     sync_client := v;
     current_trial := current_trial st;
     target_position := target_position st;
     correct_category := correct_category st;
     client_response := client_response st;
     client_rt := client_rt st;
     first_responder := first_responder st;
     first_response := first_response st;
     target_square_color := target_square_color st;
     received_server := received_server st;
     received_client := received_client st;
     total_score := total_score st;
     data_log := data_log st;
     saved := saved st |}.

Definition set_current_trial (v : json) (st : coordinator) : coordinator :=
  {| gaze := gaze st;
     sync_client := sync_client st;
     current_trial := v;
     target_position := target_position st;
     correct_category := correct_category st;
     client_response := client_response st;
     client_rt := client_rt st;
     first_responder := first_responder st;
     first_response := first_response st;
     target_square_color := target_square_color st;
     received_server := received_server st;
     received_client := received_client st;
     total_score := total_score st;
     data_log := data_log st;
     saved := saved st |}.

Definition set_target_position (v : option json) (st : coordinator) : coordinator :=
  {| gaze := gaze st;
     sync_client := sync_client st;
     current_trial := current_trial st;
     target_position := v;
     correct_category := correct_category st;
     client_response := client_response st;
     client_rt := client_rt st;
     first_responder := first_responder st;
     first_response := first_response st;
     target_square_color := target_square_color st;
     received_server := received_server st;
     received_client := received_client st;
     total_score := total_score st;
     data_log := data_log st;
     saved := saved st |}.

Definition set_correct_category (v : json) (st : coordinator) : coordinator :=
  {| gaze := gaze st;
     sync_client := sync_client st;
     current_trial := current_trial st;
     target_position := target_position st;
     correct_category := v;
     client_response := client_response st;
     client_rt := client_rt st;
     first_responder := first_responder st;
     first_response := first_response st;
     target_square_color := target_square_color st;
     received_server := received_server st;
     received_client := received_client st;
     total_score := total_score st;
     data_log := data_log st;
     saved := saved st |}.

Definition set_client_response (v : json) (st : coordinator) : coordinator :=
  {| gaze := gaze st;
     sync_client := sync_client st;
     current_trial := current_trial st;
     target_position := target_position st;
     correct_category := correct_category st;
     client_response := v;
     client_rt := client_rt st;
     first_responder := first_responder st;
     first_response := first_response st;
     target_square_color := target_square_color st;
     received_server := received_server st;
     received_client := received_client st;
     total_score := total_score st;
     data_log := data_log st;
     saved := saved st |}.

Definition set_client_rt (v : json) (st : coordinator) : coordinator :=
  {| gaze := gaze st;
     sync_client := sync_client st;
     current_trial := current_trial st;
     target_position := target_position st;
     correct_category := correct_category st;
     client_response := client_response st;
     client_rt := v;
     first_responder := first_responder st;
     first_response := first_response st;
     target_square_color := target_square_color st;
     received_server := received_server st;
     received_client := received_client st;
     total_score := total_score st;
     data_log := data_log st;
     saved := saved st |}.

Definition set_first_responder (v : json) (st : coordinator) : coordinator :=
  {| gaze := gaze st;
     sync_client := sync_client st;
     current_trial := current_trial st;
     target_position := target_position st;
     correct_category := correct_category st;
     client_response := client_response st;
     client_rt := client_rt st;
     first_responder := v;
     first_response := first_response st;
     target_square_color := target_square_color st;
     received_server := received_server st;
     received_client := received_client st;
     total_score := total_score st;
     data_log := data_log st;
     saved := saved st |}.

Definition set_first_response (v : json) (st : coordinator) : coordinator :=
  {| gaze := gaze st;
     sync_client := sync_client st;
     current_trial := current_trial st;
     target_position := target_position st;
     correct_category := correct_category st;
     client_response := client_response st;
     client_rt := client_rt st;
     first_responder := first_responder st;
     first_response := v;
     target_square_color := target_square_color st;
     received_server := received_server st;
     received_client := received_client st;
     total_score := total_score st;
     data_log := data_log st;
     saved := saved st |}.

Definition set_target_square_color (v : string) (st : coordinator) : coordinator :=
  {| gaze := gaze st;
     sync_client := sync_client st;
     current_trial := current_trial st;
     target_position := target_position st;
     correct_category := correct_category st;
     client_response := client_response st;
     client_rt := client_rt st;
     first_responder := first_responder st;
     first_response := first_response st;
     target_square_color := v;
     received_server := received_server st;
     received_client := received_client st;
     total_score := total_score st;
     data_log := data_log st;
     saved := saved st |}.

Definition set_received_server (v : bool) (st : coordinator) : coordinator :=
  {| gaze := gaze st;
     sync_client := sync_client st;
     current_trial := current_trial st;
     target_position := target_position st;
     correct_category := correct_category st;
     client_response := client_response st;
     client_rt := client_rt st;
     first_responder := first_responder st;
     first_response := first_response st;
     target_square_color := target_square_color st;
     received_server := v;
     received_client := received_client st;
     total_score := total_score st;
     data_log := data_log st;
     saved := saved st |}.

Definition set_received_client (v : bool) (st : coordinator) : coordinator :=
  {| gaze := gaze st;
     sync_client := sync_client st;
     current_trial := current_trial st;
     target_position := target_position st;
     correct_category := correct_category st;
     client_response := client_response st;
     client_rt := client_rt st;
     first_responder := first_responder st;
     first_response := first_response st;
     target_square_color := target_square_color st;
     received_server := received_server st;
     received_client := v;
     total_score := total_score st;
     data_log := data_log st;
     saved := saved st |}.

Definition set_total_score (v : json) (st : coordinator) : coordinator :=
  {| gaze := gaze st;
     sync_client := sync_client st;
     current_trial := current_trial st;
     target_position := target_position st;
     correct_category := correct_category st;
     client_response := client_response st;
     client_rt := client_rt st;
     first_responder := first_responder st;
     first_response := first_response st;
     target_square_color := target_square_color st;
     received_server := received_server st;
     received_client := received_client st;
     total_score := v;
     data_log := data_log st;
     saved := saved st |}.

Definition set_data_log (v : list trial_log) (st : coordinator) : coordinator :=
  {| gaze := gaze st;
     sync_client := sync_client st;
     current_trial := current_trial st;
     target_position := target_position st;
     correct_category := correct_category st;
     client_response := client_response st;
     client_rt := client_rt st;
     first_responder := first_responder st;
     first_response := first_response st;
     target_square_color := target_square_color st;
     received_server := received_server st;
     received_client := received_client st;
     total_score := total_score st;
     data_log := v;
     saved := saved st |}.

Definition set_saved (v : option (list trial_log)) (st : coordinator) : coordinator :=
  {| gaze := gaze st;
     sync_client := sync_client st;
     current_trial := current_trial st;
     target_position := target_position st;
     correct_category := correct_category st;
     client_response := client_response st;
     client_rt := client_rt st;
     first_responder := first_responder st;
     first_response := first_response st;
     target_square_color := target_square_color st;
     received_server := received_server st;
     received_client := received_client st;
     total_score := total_score st;
     data_log := data_log st;
     saved := v |}.

Definition set_sharing (b : bool) (st : coordinator) : coordinator :=
  set_gaze (Gaze.set_sharing b (gaze st)) st.

Definition sharing (st : coordinator) : bool :=
  Gaze.GAZE_SHARING_ACTIVE (gaze st).

(** [sync_client.send_message(...)], result dropped. *)
Definition send (message_type : string) (data : option dict) (now : Q)
    (st : coordinator) : coordinator :=
  set_sync_client
    (Sync.send_message message_type data 3 now (sync_client st)).2 st.

(** [d.get(k)] and [d.get(k, default)] *)
Definition get (d : dict) (k : string) : json := default JNull (d !! k).
Definition get_or (d : dict) (k : string) (dflt : json) : json :=
  default dflt (d !! k).

(** [x is None] *)
Definition is_None (v : json) : bool :=
  match v with JNull => true | _ => false end.

(** The keys that [event.getKeys] is asked for. *)
Inductive key : Type := Kf | Kl | Kh | Kc | Kescape.

Definition is_escape (k : key) : bool :=
  match k with Kescape => true | _ => false end.

(** [key.upper()] *)
Definition upper (k : key) : string :=
  match k with
  | Kf => "F" | Kl => "L" | Kh => "H" | Kc => "C" | Kescape => "ESCAPE"
  end.

Definition ready : dict := <["ready" := JBool true]> ∅.
Definition client_ready : dict := <["client_ready" := JBool true]> ∅.

(** The three lines that every escape branch runs. *)
Definition escape (now : Q) (st : coordinator) : flow coordinator :=
  Leave Terminate (send "end_experiment" None now (set_sharing false st)).

(** [message.get('data', {})], as a dictionary when it is one. *)
Definition data_of (message : dict) : option dict :=
  match get_or message "data" (JObj ∅) with
  | JObj d => Some d
  | _ => None
  end.

(** *** Stage 1: grid display *)

(** One turn of the display loop: the reading of [stage_clock] in the loop
    test, what the gaze receive thread takes in meanwhile, what the eye
    tracker has (no sample, a sample without gaze, a gaze position), the
    reading of [time.time()] for the sample sent, whether escape was
    pressed, and the clock for the message that escape sends. *)
Record frame : Type := {
  frame_clock : Q;
  frame_gaze_rx : list recv;
  frame_sample : option (option (Q * Q));
  frame_now : Q;
  frame_escape : bool;
  frame_end_time : Q
}.

(** [update_local_gaze_display()], without the marker and its counters. *)
Definition update_local_gaze_display (sample : option (option (Q * Q)))
    (now : Q) (g : Gaze.globals) : Gaze.globals :=
  if negb (Gaze.GAZE_SHARING_ACTIVE g) then g
  else
    match sample with
    | None => g
    | Some (Some (x, y)) => Gaze.send_gaze_data x y true now g
    | Some None => Gaze.send_gaze_data 0 0 false now g
    end.

Fixpoint display_loop (frames : list frame) (st : coordinator)
    : flow coordinator :=
  match frames with
  | [] => Stuck st
  | f :: frames' =>
      if Sync.Qltb (frame_clock f) 7 then
        let g := Gaze.receive_gaze_data (frame_gaze_rx f) (gaze st) in
        let g := update_local_gaze_display (frame_sample f) (frame_now f) g in
        let st := set_gaze g st in
        if frame_escape f then escape (frame_end_time f) st
        else display_loop frames' st
      else Next st
  end.

(** The [stage_grid_display] branch; [grid_ok] tells whether
    [create_synchronized_grid] came back. *)
Definition stage_grid_display (message : dict) (grid_ok : bool)
    (ack_time : Q) (frames : list frame) (st : coordinator)
    : flow coordinator :=
  let st := set_sharing true st in
  match data_of message with
  | None => Leave Exception st
  | Some trial_data =>
      let st := set_current_trial (get_or trial_data "trial_number" (JNum 0)) st in
      let st := set_target_position
                  (Some (get_or trial_data "target_position" (JNum 0))) st in
      let st := set_correct_category
                  (get_or trial_data "target_category" (JStr "")) st in
      if negb grid_ok then Leave Exception st
      else
        let st := send "stage_sync_ack" (Some ready) ack_time st in
        match display_loop frames st with
        | Next st => Next (set_sharing false st)
        | other => other
        end
  end.

(** *** Stage 2: response collection *)

(** One turn of the response loop: the keys that [event.getKeys] returns
    with their times, the clock for a message sent in this turn, and the
    start time and schedule of the [wait_for_message] that ends it. *)
Record turn : Type := {
  turn_keys : list (key * Q);
  turn_send_time : Q;
  turn_wait_start : Q;
  turn_sched : list Sync.tick
}.

Definition response_update (response : json) (rt : json) : dict :=
  <["responder" := JStr "client"]> (<["response" := response]>
    (<["rt" := rt]> ∅)).

(** The first recorded response: who, what, and the square turning green. *)
Definition record_first (who : string) (what : json) (st : coordinator)
    : coordinator :=
  if is_None (first_responder st) then
    set_target_square_color "green"
      (set_first_response what (set_first_responder (JStr who) st))
  else st.

(** "Check for client response" *)
Definition check_client (i : turn) (st : coordinator) : flow coordinator :=
  if negb (received_client st) then
    match turn_keys i with
    | [] => Next st
    | (k, rt) :: _ =>
        if is_escape k then escape (turn_send_time i) st
        else
          let st := set_client_response (JStr (upper k)) st in
          let st := set_client_rt (JNum rt) st in
          let st := set_received_client true st in
          let st := record_first "client" (client_response st) st in
          Next (send "response_update"
                  (Some (response_update (client_response st) (client_rt st)))
                  (turn_send_time i) st)
    end
  else if existsb (fun kr => is_escape kr.1) (turn_keys i)
  then escape (turn_send_time i) st
  else Next st.

(** "Check for server response" *)
Definition check_server (i : turn) (st : coordinator) : flow coordinator :=
  match Sync.wait_for_message "response_update" (1 # 10) (turn_wait_start i)
          (turn_sched i) (sync_client st) with
  | None => Stuck st
  | Some (resp_msg, c) =>
      let st := set_sync_client c st in
      match resp_msg with
      | None => Next st
      | Some resp_msg =>
          if Nat.eqb (size resp_msg) 0 then Next st
          else if eq_str (resp_msg !! "type") "response_update" then
            match data_of resp_msg with
            | None => Leave Exception st
            | Some resp_data =>
                if eq_str (resp_data !! "responder") "server" then
                  if negb (received_server st) then
                    let st := set_received_server true st in
                    Next (record_first "server" (get resp_data "response") st)
                  else Next st
                else Next st
            end
          else Next st
      end
  end.

(** Body of the response loop; drawing the recall grid reads
    [target_position], which must be bound. *)
Definition response_turn (i : turn) (st : coordinator) : flow coordinator :=
  match target_position st with
  | None => Leave Exception st
  | Some _ =>
      match check_client i st with
      | Next st => check_server i st
      | other => other
      end
  end.

Fixpoint response_loop (turns : list turn) (st : coordinator)
    : flow coordinator :=
  if received_server st && received_client st then Next st
  else
    match turns with
    | [] => Stuck st
    | i :: turns' =>
        match response_turn i st with
        | Next st => response_loop turns' st
        | other => other
        end
    end.

(** What the [stage_response] branch does before its loop. *)
Definition response_entry (ack_time : Q) (st : coordinator) : coordinator :=
  let st := set_sharing false st in
  let st := set_target_square_color "red" st in
  let st := send "stage_sync_ack" (Some ready) ack_time st in
  let st := set_client_response JNull st in
  let st := set_client_rt JNull st in
  let st := set_first_responder JNull st in
  let st := set_first_response JNull st in
  set_received_client false (set_received_server false st).

(** The [stage_response] branch. *)
Definition stage_response (ack_time : Q) (turns : list turn)
    (st : coordinator) : flow coordinator :=
  match response_loop turns (response_entry ack_time st) with
  | Next st => Next (set_sharing false st)
  | other => other
  end.

(** *** Stage 3: feedback *)

(** [trial_score > 0] raises on a value that is not a number. *)
Definition is_number (v : json) : bool :=
  match v with JNum _ | JBool _ => true | _ => false end.

(** The feedback loop; [clock] lists the readings of [feedback_clock] in
    the loop test.  The body only draws. *)
Fixpoint feedback_loop (trial_score : json) (clock : list Q)
    (st : coordinator) : flow coordinator :=
  match clock with
  | [] => Stuck st
  | t :: clock' =>
      if Sync.Qltb t 1 then
        if is_number trial_score then feedback_loop trial_score clock' st
        else Leave Exception st
      else Next st
  end.

(** What the [stage_feedback] branch does before its loop. *)
Definition feedback_entry (feedback_data : dict) (ack_time : Q)
    (st : coordinator) : coordinator :=
  let st := set_total_score (get_or feedback_data "total_score" (JNum 0)) st in
  let st := set_first_responder
              (get_or feedback_data "first_responder" (JStr "")) st in
  let st := set_first_response
              (get_or feedback_data "first_response" (JStr "")) st in
  let st := set_correct_category
              (get_or feedback_data "correct_category" (JStr "")) st in
  send "stage_sync_ack" (Some ready) ack_time st.

Definition make_log (trial_score : json) (target : json) (st : coordinator)
    : trial_log :=
  {| log_trial := current_trial st;
     log_target_position := target;
     log_correct_category := correct_category st;
     log_client_response := client_response st;
     log_client_rt := client_rt st;
     log_first_responder := first_responder st;
     log_first_response := first_response st;
     log_trial_score := trial_score;
     log_total_score := total_score st |}.

(** The [stage_feedback] branch. *)
Definition stage_feedback (message : dict) (ack_time : Q) (clock : list Q)
    (st : coordinator) : flow coordinator :=
  let st := set_sharing false st in
  match data_of message with
  | None => Leave Exception st
  | Some feedback_data =>
      let trial_score := get_or feedback_data "trial_score" (JNum 0) in
      let st := feedback_entry feedback_data ack_time st in
      match feedback_loop trial_score clock st with
      | Next st =>
          let st := set_sharing false st in
          match target_position st with
          | None => Leave Exception st
          | Some target =>
              Next (set_data_log
                      (data_log st ++ [make_log trial_score target st]) st)
          end
      | other => other
      end
  end.

(** *** The main loop *)

(** One turn of the [while experiment_running] loop: what the receive
    thread does while [get_message] blocks, and the inputs of the stage
    that the message may start. *)
Record step : Type := {
  step_rx : list Sync.rx;
  step_grid_ok : bool;
  step_ack_time : Q;
  step_frames : list frame;
  step_turns : list turn;
  step_clock : list Q
}.

(** A stage started by [message], if any; [None] stands for
    [end_experiment], which breaks out of the loop. *)
Definition dispatch (i : step) (message : dict) (st : coordinator)
    : option (flow coordinator) :=
  let msg_type := message !! "type" in
  if eq_str msg_type "stage_grid_display" then
    Some (stage_grid_display message (step_grid_ok i) (step_ack_time i)
            (step_frames i) st)
  else if eq_str msg_type "stage_response" then
    Some (stage_response (step_ack_time i) (step_turns i) st)
  else if eq_str msg_type "stage_feedback" then
    Some (stage_feedback message (step_ack_time i) (step_clock i) st)
  else if eq_str msg_type "end_experiment" then None
  else Some (Next st).

Fixpoint main_loop (steps : list step) (st : coordinator)
    : flow coordinator :=
  match steps with
  | [] => Stuck st
  | i :: steps' =>
      let '(message, c) := Sync.get_message (step_rx i) (sync_client st) in
      let st := set_sync_client c st in
      match message with
      | None => main_loop steps' st
      | Some message =>
          if Nat.eqb (size message) 0 then main_loop steps' st
          else
            match dispatch i message st with
            | None => Next st
            | Some (Next st) => main_loop steps' st
            | Some other => other
            end
      end
  end.

(** "Save data", the final score (a division, which raises when
    [total_score] is not a number) and [sync_client.close()] *)
Definition finish (st : coordinator) : flow coordinator :=
  let st := set_saved (Some (data_log st)) st in
  if is_number (total_score st)
  then Next (set_sync_client (Sync.close (sync_client st)) st)
  else Leave Exception st.

(** Everything [run_synchronized_experiment] takes from outside: whether
    [setup_gaze_network] succeeds, the socket that [start_client] binds,
    the clock readings and the schedule of the wait for
    [start_experiment], the clock for [ack_start], and the turns of the
    main loop. *)
Record world : Type := {
  gaze_network_ok : bool;
  sync_socket : udp_socket;
  start_time : Q;
  start_sched : list Sync.tick;
  ack_time : Q;
  steps : list step
}.

(** The state on entry: nothing bound, nothing logged. *)
Definition initial (g : Gaze.globals) : coordinator :=
  {| gaze := g; sync_client := Sync.new; current_trial := JNum 0;
     target_position := None; correct_category := JNull;
     client_response := JNull; client_rt := JNull;
     first_responder := JNull; first_response := JNull;
     target_square_color := "red";
     received_server := false; received_client := false;
     total_score := JNum 0; data_log := []; saved := None |}.

(** [run_synchronized_experiment()] *)
Definition run_synchronized_experiment (w : world) (g : Gaze.globals)
    : flow coordinator :=
  let st := initial g in
  if negb (gaze_network_ok w) then Leave Return st
  else
    let st := set_sync_client
                (Sync.start_client (sync_socket w) Sync.new) st in
    match Sync.wait_for_message "start_experiment" 60 (start_time w)
            (start_sched w) (sync_client st) with
    | None => Stuck st
    | Some (start_msg, c) =>
        let st := set_sync_client c st in
        match start_msg with
        | None => Leave Return st
        | Some start_msg =>
            if Nat.eqb (size start_msg) 0 then Leave Return st
            else
              let st := send "ack_start" (Some client_ready) (ack_time w) st in
              match main_loop (steps w) st with
              | Next st => finish st
              | other => other
              end
        end
    end.

(** What the first-responder race has settled: who, what, and the colour
    of the target square. *)
Definition race (st : coordinator) : json * json * string :=
  (first_responder st, first_response st, target_square_color st).

(** How the race may move from one state to a later one: not at all
    once it is settled, not at all while it stays unsettled, and when it
    gets settled the square is green. *)
Definition settles (st st' : coordinator) : Prop :=
  (is_None (first_responder st) = false -> race st' = race st)
  /\ (is_None (first_responder st') = true -> race st' = race st)
  /\ (is_None (first_responder st) = true ->
      is_None (first_responder st') = false ->
      target_square_color st' = "green").

End Coordinator.

(** ** The gaze channel in use *)

(** What can happen to the gaze globals, in any order: the foreground loop
    submits a sample, the receive thread takes a [recvfrom] result, the
    coordinator assigns the sharing flag. *)
Module GazeRun.

Inductive action : Type :=
  | Submit (c : Gaze.call)
  | Receive (r : recv)
  | Share (b : bool).

Definition act (a : action) (g : Gaze.globals) : Gaze.globals :=
  match a with
  | Submit c =>
      Gaze.send_gaze_data (Gaze.call_x c) (Gaze.call_y c) (Gaze.call_valid c)
        (Gaze.call_now c) g
  | Receive r => Gaze.receive_gaze_data_step r g
  | Share b => Gaze.set_sharing b g
  end.

Definition run (acts : list action) (g : Gaze.globals) : Gaze.globals :=
  foldl (fun g a => act a g) g acts.

Definition is_submit (a : action) : bool :=
  match a with Submit _ => true | _ => false end.

Definition is_receive (a : action) : bool :=
  match a with Receive _ => true | _ => false end.

(** The number of actions of a kind in a run. *)
Definition count (f : action -> bool) (acts : list action) : nat :=
  length (filter (fun a => f a = true) acts).

End GazeRun.

(** ** The control channel in use *)

Module SyncRun.

(** The message that one [recvfrom] result puts on the queue, if any. *)
Definition enqueues (i : Sync.rx) : option dict :=
  match Sync.rx_recv i with
  | RecvData (Some (JObj message)) => Some (Sync.stamp i message)
  | _ => None
  end.

(** The messages that a run of [recvfrom] results puts on the queue. *)
Definition enqueued (rs : list Sync.rx) : list dict := omap enqueues rs.

Definition is_ping (i : Sync.rx) : bool :=
  match enqueues i with
  | Some message => eq_str (message !! "type") "ping"
  | None => false
  end.

(** The reply to a ping. *)
Definition pong_for (i : Sync.rx) : dict :=
  Sync.envelope "pong" (Sync.rx_reply_time i) (Some Sync.pong_data).

Definition pongs (rs : list Sync.rx) : list dict :=
  map pong_for (filter (fun i => is_ping i = true) rs).

(** What the receive thread enqueues during the first [n] turns of a
    schedule of [wait_for_message]. *)
Definition arrivals (sched : list Sync.tick) : list dict :=
  concat (map (fun tk => enqueued (Sync.tick_rx tk)
                         ++ enqueued (Sync.tick_rx_late tk)) sched).

(** One turn of the wait loop on a queue without the awaited message:
    the head goes to the tail. *)
Definition requeue (q : list dict) : list dict :=
  match q with
  | [] => []
  | message :: rest => rest ++ [message]
  end.

End SyncRun.

(** ** The coordinator over whole runs *)

Module CoordinatorRun.
Import Coordinator.

(** What every operation on the client keeps: it is closed only by
    [close], and a socket once there stays. *)
Definition client_steady (c c' : Sync.RobustSyncClient) : Prop :=
  Sync.closed c' = Sync.closed c
  /\ (is_Some (Sync.socket c) -> is_Some (Sync.socket c')).

(** What every stage keeps: the trial log only grows at its end, and
    nothing is saved before the main loop is left. *)
Definition steady (st st' : coordinator) : Prop :=
  data_log st `prefix_of` data_log st'
  /\ saved st' = saved st
  /\ client_steady (sync_client st) (sync_client st').

(** The gaze globals untouched but for the flag being cleared. *)
Definition same_or_off (g g' : Gaze.globals) : Prop :=
  g' = g \/ g' = Gaze.set_sharing false g.

(** The sharing flag is off wherever the function is left other than by
    an exception. *)
Definition ends_off (f : flow coordinator) : Prop :=
  match f with
  | Next st | Leave Return st | Leave Terminate st => sharing st = false
  | Leave Exception _ | Stuck _ => True
  end.

(** What holds of the answers during a response stage: the client's
    answer, once given, is one of the four keys; as soon as either side
    has answered a first responder is recorded and the square is green;
    and a first response recorded for the client is the client's answer. *)
Definition answers_ok (st : coordinator) : Prop :=
  (received_client st = true ->
     exists k, is_escape k = false /\ client_response st = JStr (upper k))
  /\ (received_client st = true \/ received_server st = true ->
      (first_responder st = JStr "client"
       \/ first_responder st = JStr "server")
      /\ target_square_color st = "green")
  /\ (first_responder st = JStr "client" ->
      received_client st = true /\ first_response st = client_response st)
  /\ (is_None (first_responder st) = false ->
      received_client st = true \/ received_server st = true).

(** The entry that the feedback stage logs. *)
Definition feedback_log (feedback_data : dict) (target : json)
    (st : coordinator) : trial_log :=
  {| log_trial := current_trial st;
     log_target_position := target;
     log_correct_category := get_or feedback_data "correct_category" (JStr "");
     log_client_response := client_response st;
     log_client_rt := client_rt st;
     log_first_responder := get_or feedback_data "first_responder" (JStr "");
     log_first_response := get_or feedback_data "first_response" (JStr "");
     log_trial_score := get_or feedback_data "trial_score" (JNum 0);
     log_total_score := get_or feedback_data "total_score" (JNum 0) |}.

(** Leaving through [terminate_task] happens only after an attempt to
    send [end_experiment]. *)
Definition notified (f : flow coordinator) : Prop :=
  match f with
  | Leave Terminate st =>
      Sync.attempts "end_experiment" (sync_client st) <> []
  | _ => True
  end.

(** The client's answer stands: its record and what was sent for it. *)
Definition answer_stands (st st' : coordinator) : Prop :=
  received_client st' = true
  /\ client_response st' = client_response st
  /\ client_rt st' = client_rt st
  /\ Sync.attempts "response_update" (sync_client st')
     = Sync.attempts "response_update" (sync_client st).

End CoordinatorRun.

(** ** Local and remote gaze markers *)

Module Display.

(** The four counters of [local_gaze_stats]. *)
Record local_stats : Type := {
  total_attempts : nat;
  samples_received : nat;
  valid_gaze_data : nat;
  missing_data : nat
}.

(** What the eye tracker has when asked: nothing new, or a sample, whose
    gaze position is [None] when neither eye is in it or reading it
    raises. *)
Inductive tracker : Type :=
  | NoSample
  | Sample (gaze_data : option (Q * Q)).

Record state : Type := {
  net : Gaze.globals;
  local_gaze_stats : local_stats
}.

(** [gaze_data and gaze_data[0] != MISSING_DATA and gaze_data[1] !=
    MISSING_DATA], with the position when it holds. *)
Definition usable (MISSING_DATA : Q) (gaze_data : option (Q * Q))
    : option (Q * Q) :=
  match gaze_data with
  | Some (x, y) =>
      if negb (Qeq_bool x MISSING_DATA) && negb (Qeq_bool y MISSING_DATA)
      then Some (x, y) else None
  | None => None
  end.

(** [update_local_gaze_display()] with its counters; the marker itself is
    left to the renderer.  [MISSING_DATA] is the constant of the tracker
    library. *)
Definition update_local_gaze_display (MISSING_DATA : Q) (t : tracker)
    (now : Q) (s : state) : state :=
  if negb (Gaze.GAZE_SHARING_ACTIVE (net s)) then s
  else
    let st := local_gaze_stats s in
    match t with
    | NoSample =>
        {| net := net s;
           local_gaze_stats :=
             {| total_attempts := S (total_attempts st);
                samples_received := samples_received st;
                valid_gaze_data := valid_gaze_data st;
                missing_data := missing_data st |} |}
    | Sample gaze_data =>
        match usable MISSING_DATA gaze_data with
        | Some (x, y) =>
            {| net := Gaze.send_gaze_data x y true now (net s);
               local_gaze_stats :=
                 {| total_attempts := S (total_attempts st);
                    samples_received := S (samples_received st);
                    valid_gaze_data := S (valid_gaze_data st);
                    missing_data := missing_data st |} |}
        | None =>
            {| net := Gaze.send_gaze_data 0 0 false now (net s);
               local_gaze_stats :=
                 {| total_attempts := S (total_attempts st);
                    samples_received := S (samples_received st);
                    valid_gaze_data := valid_gaze_data st;
                    missing_data := S (missing_data st) |} |}
        end
    end.

(** What happens while a display loop runs, in the order in which it
    happens: the coordinator assigns the sharing flag, the foreground
    calls [update_local_gaze_display], the receive thread goes once round
    the loop of [receive_gaze_data]. *)
Inductive event : Type :=
  | Share (b : bool)
  | Poll (t : tracker) (now : Q)
  | Receive (r : recv).

Definition act (MISSING_DATA : Q) (e : event) (s : state) : state :=
  match e with
  | Share b => {| net := Gaze.set_sharing b (net s);
                  local_gaze_stats := local_gaze_stats s |}
  | Poll t now => update_local_gaze_display MISSING_DATA t now s
  | Receive r => {| net := Gaze.receive_gaze_data_step r (net s);
                    local_gaze_stats := local_gaze_stats s |}
  end.

Definition run (MISSING_DATA : Q) (es : list event) (s : state) : state :=
  foldl (fun s e => act MISSING_DATA e s) s es.

Definition is_poll (e : event) : bool :=
  match e with Poll _ _ => true | _ => false end.

(** Truth value of a Python object. *)
Definition truthy (v : json) : bool :=
  match v with
  | JNull => false
  | JBool b => b
  | JNum q => negb (Qeq_bool q 0)
  | JStr s => negb (String.eqb s "")
  | JArr l => match l with [] => false | _ => true end
  | JObj o => negb (Nat.eqb (size o) 0)
  end.

(** The value as a number, when it is one (a [bool] is an [int]). *)
Definition number (v : option json) : option Q :=
  match v with
  | Some (JNum q) => Some q
  | Some (JBool b) => Some (if b then 1 else 0)%Q
  | _ => None
  end.

Section Arithmetic.

(** Python's arithmetic on the values at hand: the floats, [w / 2] for a
    screen dimension, and the two subtractions [v - f] and [f - v] of a
    float and a stored value.  A subtraction is [None] when Python raises:
    TypeError on a value that is no number, OverflowError on an integer
    too large for a float. *)
Variable float : Type.
Variable half : float -> float.
Variable minus : json -> float -> option float.
Variable minus_from : float -> json -> option float.

(** [update_remote_gaze_display()]: the position of the remote marker
    after the call, given the one before.  Whatever is raised between
    [try] and [setPos] (also the KeyError of a missing field) is swallowed
    and leaves the marker where it was. *)
Definition update_remote_gaze_display (scn_width scn_height : float)
    (g : Gaze.globals) (marker : float * float) : float * float :=
  if negb (Gaze.GAZE_SHARING_ACTIVE g) then marker
  else if truthy (default (JBool false) (Gaze.remote_gaze_data g !! "valid"))
  then
    match Gaze.remote_gaze_data g !! "x" with
    | None => marker
    | Some x =>
        match minus x (half scn_width) with
        | None => marker
        | Some gaze_x =>
            match Gaze.remote_gaze_data g !! "y" with
            | None => marker
            | Some y =>
                match minus_from (half scn_height) y with
                | None => marker
                | Some gaze_y => (gaze_x, gaze_y)
                end
            end
        end
    end
  else marker.

End Arithmetic.

End Display.

(** ** Responses, categories and images *)

Module Stimuli.

(** [str.lower()] on ASCII letters. *)
Definition lower_ascii (a : Ascii.ascii) : Ascii.ascii :=
  let n := Ascii.nat_of_ascii a in
  if (65 <=? n) && (n <=? 90) then Ascii.ascii_of_nat (n + 32) else a.

Fixpoint lower (s : string) : string :=
  match s with
  | EmptyString => EmptyString
  | String a s' => String (lower_ascii a) (lower s')
  end.

(** [response_mapping.get] *)
Definition response_mapping (k : string) : option string :=
  if String.eqb k "f" then Some "face"
  else if String.eqb k "l" then Some "limb"
  else if String.eqb k "h" then Some "house"
  else if String.eqb k "c" then Some "car"
  else None.

(** [evaluate_response(response, correct_category)] *)
Definition evaluate_response (response : string) (correct_category : json)
    : bool :=
  match response_mapping (lower response), correct_category with
  | Some category, JStr c => String.eqb category c
  | None, JNull => true
  | _, _ => false
  end.

(** [CATEGORY_MAP[num]]; [None] stands for the KeyError of a key that
    is not there (and the TypeError of one that cannot be hashed).  A key
    is found by numeric equality. *)
Definition CATEGORY_MAP (num : json) : option string :=
  match Display.number (Some num) with
  | Some q =>
      if Qeq_bool q 0 then Some "face"
      else if Qeq_bool q 1 then Some "limb"
      else if Qeq_bool q 2 then Some "house"
      else if Qeq_bool q 3 then Some "car"
      else None
  | None => None
  end.

(** The decimal digit [i] as text, for [i] below ten. *)
Definition digit (i : nat) : string :=
  String (Ascii.ascii_of_nat (48 + i)) EmptyString.

(** The four categories with their folders, in the order of
    [category_folders]. *)
Definition category_folders : list (string * string) :=
  [("face", "faces"); ("limb", "limbs"); ("house", "houses"); ("car", "cars")].

Section Images.

(** The file system, and the path separator of [os.path.join]. *)
Variable exists_ : string -> bool.
Variable sep : string.

Definition join (a b : string) : string := String.append a (String.append sep b).

(** The ten paths tried for a folder. *)
Definition candidates (folder_name : string) : list string :=
  map (fun i => join (join "stimuli" folder_name)
                  (String.append folder_name
                     (String.append "-" (String.append (digit i) ".png"))))
      (seq 0 10).

Definition placeholders (category_key : string) : list string :=
  map (fun i => String.append "placeholder_"
                  (String.append category_key
                     (String.append "_" (digit i))))
      (seq 0 10).

(** The body of the loop over the categories, on the list of one. *)
Definition load_category (category_key folder_name : string)
    (have : list string) : list string :=
  let have :=
    if exists_ (join "stimuli" folder_name)
    then have ++ filter (fun path => exists_ path = true)
                   (candidates folder_name)
    else have in
  match have with
  | [] => placeholders category_key
  | _ => have
  end.

(** [load_all_images()]; [None] stands for the KeyError of a category
    that [images] lacks. *)
Definition load_all_images (images : gmap string (list string))
    : option (gmap string (list string)) :=
  foldl (fun acc '(category_key, folder_name) =>
           match acc with
           | None => None
           | Some images =>
               match images !! category_key with
               | None => None
               | Some have =>
                   Some (<[category_key :=
                            load_category category_key folder_name have]>
                           images)
               end
           end)
        (Some images) category_folders.

End Images.

(** The module-level [images]. *)
Definition no_images : gmap string (list string) :=
  <["face" := []]> (<["limb" := []]> (<["house" := []]> (<["car" := []]> ∅))).

(** [path.startswith('placeholder_')] *)
Definition is_placeholder (path : string) : bool :=
  String.prefix "placeholder_" path.

(** The category that a response key stands for. *)
Definition key_category (k : Coordinator.key) : option string :=
  response_mapping (lower (Coordinator.upper k)).

End Stimuli.

(** ** Concrete inputs *)

(** Small worlds on which the definitions above are run in the examples
    at the end. *)
Module Inputs.

Definition healthy : udp_socket := {| script := []; wire := [] |}.
Definition failing : udp_socket :=
  {| script := [Raise; Raise; Raise]; wire := [] |}.

Definition g_off : Gaze.globals := Gaze.initial healthy.

Definition calls : list Gaze.call :=
  [ {| Gaze.call_x := 512; Gaze.call_y := 384; Gaze.call_valid := true;
       Gaze.call_now := 10 |};
    {| Gaze.call_x := 0; Gaze.call_y := 0; Gaze.call_valid := false;
       Gaze.call_now := 11 |} ].

Definition gaze_from (origin : string) (x y t : Q) : dict :=
  <["x" := JNum x]> (<["y" := JNum y]> (<["valid" := JBool true]>
    (<["timestamp" := JNum t]> (<["computer" := JStr origin]> ∅)))).

(** A sample stamped 20 and one stamped 5 that arrives after it. *)
Definition fresh : dict := gaze_from "A" 100 200 20.
Definition stale : dict := gaze_from "A" 300 400 5.
Definition own : dict := gaze_from "B" 1 2 30.

Definition control (ty : string) (t : Q) (data : dict) : dict :=
  <["type" := JStr ty]> (<["timestamp" := JNum t]>
    (<["data" := JObj data]> ∅)).

Definition peer : json := JArr [JStr "100.1.1.10"; JNum 5555].

Definition arrival (ty : string) (data : dict) : Sync.rx :=
  {| Sync.rx_recv := RecvData (Some (JObj (control ty 1 data)));
     Sync.rx_addr := peer; Sync.rx_time := 2; Sync.rx_reply_time := 3 |}.

Definition ping : Sync.rx := arrival "ping" ∅.

Definition c_ok : Sync.RobustSyncClient := Sync.start_client healthy Sync.new.
Definition c_bad : Sync.RobustSyncClient := Sync.start_client failing Sync.new.

(** A queue with the awaited message behind one of another type. *)
Definition m_ack : dict := control "stage_sync_ack" 1 ∅.
Definition m_feedback : dict := control "stage_feedback" 2 ∅.
Definition m_end : dict := control "end_experiment" 3 ∅.

Definition c_queued : Sync.RobustSyncClient :=
  Sync.with_queue [m_ack; m_feedback; m_end] c_ok.

Definition at_time (t : Q) : Sync.tick :=
  {| Sync.tick_now := t; Sync.tick_rx := []; Sync.tick_rx_late := [] |}.

(** A world in which nothing arrives and the clock has passed the
    deadline at the second look. *)
Definition silent : Coordinator.world :=
  {| Coordinator.gaze_network_ok := true;
     Coordinator.sync_socket := healthy;
     Coordinator.start_time := 0;
     Coordinator.start_sched := [at_time 30; at_time 61];
     Coordinator.ack_time := 61;
     Coordinator.steps := [] |}.

(** A coordinator in the middle of a response stage, the server's answer
    already recorded as the first. *)
Definition answered : Coordinator.coordinator :=
  Coordinator.set_target_square_color "green"
    (Coordinator.set_first_response (JStr "H")
      (Coordinator.set_first_responder (JStr "server")
        (Coordinator.set_received_server true
          (Coordinator.set_target_position (Some (JNum 7))
            (Coordinator.set_sync_client c_ok (Coordinator.initial g_off)))))).

(** The client then presses F; no message arrives before the wait ends. *)
Definition late_key : Coordinator.turn :=
  {| Coordinator.turn_keys := [(Coordinator.Kf, 3 # 2)];
     Coordinator.turn_send_time := 4;
     Coordinator.turn_wait_start := 4;
     Coordinator.turn_sched := [at_time 5] |}.

(** A coordinator that has shown a grid, with sharing switched on by hand
    to show that the feedback stage switches it off. *)
Definition shown : Coordinator.coordinator :=
  Coordinator.set_sharing true
    (Coordinator.set_target_position (Some (JNum 7))
      (Coordinator.set_sync_client c_ok (Coordinator.initial g_off))).

Definition feedback_data : dict :=
  <["trial_score" := JNum 1]> (<["total_score" := JNum 1]>
    (<["first_responder" := JStr "server"]> (<["first_response" := JStr "H"]>
      (<["correct_category" := JStr "house"]> ∅)))).

Definition feedback_msg : dict := control "stage_feedback" 9 feedback_data.

End Inputs.

(** Further inputs, for whole runs. *)

Module RunInputs.
Import Inputs.

(** A feedback message and then a ping arrive. *)
Definition two_arrivals : list Sync.rx :=
  [arrival "stage_feedback" feedback_data; ping].

(** The client after the wait for feedback of two quiet turns. *)
Definition c_waited : Sync.RobustSyncClient :=
  match Sync.wait_for_message "stage_feedback" 30 0 [at_time 1; at_time 2]
          c_queued with
  | Some (_, c') => c'
  | None => c_queued
  end.

(** The client's answer as the server receives it. *)
Definition answer : dict :=
  Coordinator.response_update (JStr "F") (JNum (3 # 2)).

Definition answer_arrives : Sync.rx :=
  {| Sync.rx_recv :=
       RecvData (Some (JObj (Sync.envelope "response_update" 1 (Some answer))));
     Sync.rx_addr := peer; Sync.rx_time := 2; Sync.rx_reply_time := 3 |}.

Definition answer_tick : Sync.tick :=
  {| Sync.tick_now := 2; Sync.tick_rx := [answer_arrives];
     Sync.tick_rx_late := [] |}.

(** The server's answer, and a turn in which the client presses F and the
    server's answer arrives. *)
Definition server_answer : Sync.rx :=
  arrival "response_update"
    (<["responder" := JStr "server"]> (<["response" := JStr "H"]> ∅)).

Definition both_answer : Coordinator.turn :=
  {| Coordinator.turn_keys := [(Coordinator.Kf, 3 # 2)];
     Coordinator.turn_send_time := 4;
     Coordinator.turn_wait_start := 4;
     Coordinator.turn_sched :=
       [ {| Sync.tick_now := 4; Sync.tick_rx := [server_answer];
            Sync.tick_rx_late := [] |} ] |}.

Definition after_response : Coordinator.coordinator :=
  Coordinator.flow_state (Coordinator.stage_response 10 [both_answer] shown).

Definition after_feedback : Coordinator.coordinator :=
  Coordinator.flow_state
    (Coordinator.stage_feedback feedback_msg 10 [0%Q; (1 # 2)%Q; 1%Q] shown).

(** A coordinator whose client has answered and whose server has not. *)
Definition pressed : Coordinator.coordinator :=
  Coordinator.set_received_client true
    (Coordinator.set_client_rt (JNum 1)
      (Coordinator.set_client_response (JStr "F") shown)).

(** Exact arithmetic, as Python's is on small numbers. *)
Definition exact_minus (v : json) (f : Q) : option Q :=
  match Display.number (Some v) with
  | Some q => Some (q - f)%Q
  | None => None
  end.

Definition exact_minus_from (f : Q) (v : json) : option Q :=
  match Display.number (Some v) with
  | Some q => Some (f - q)%Q
  | None => None
  end.

Definition exact_half (f : Q) : Q := (f / 2)%Q.

End RunInputs.

(** ** Properties of the gaze channel *)

Section GazeFacts.
Import Gaze.

Lemma send_gaze_data_inactive gaze_x gaze_y valid now (g : globals) :
  GAZE_SHARING_ACTIVE g = false ->
  send_gaze_data gaze_x gaze_y valid now g = g.
Proof. intros H. unfold send_gaze_data. now rewrite H. Qed.

Lemma send_gaze_data_flag gaze_x gaze_y valid now (g : globals) :
  GAZE_SHARING_ACTIVE (send_gaze_data gaze_x gaze_y valid now g)
  = GAZE_SHARING_ACTIVE g.
Proof.
  unfold send_gaze_data.
  destruct (GAZE_SHARING_ACTIVE g) eqn:E; simpl; [|exact E].
  destruct (sendto _ _) as [[] s]; exact E.
Qed.

(** C1: while [GAZE_SHARING_ACTIVE] is false, any sequence of
    [send_gaze_data] calls leaves the whole gaze state as it was: no
    datagram reaches the wire, no [sendto] is attempted (the socket's
    script is not consumed), and neither the sent nor the error counter
    moves. *)
Theorem send_gaze_data_gated (cs : list call) (g : globals) :
  GAZE_SHARING_ACTIVE g = false ->
  send_all cs g = g
  /\ wire (send_socket (send_all cs g)) = wire (send_socket g)
  /\ script (send_socket (send_all cs g)) = script (send_socket g)
  /\ sent (network_stats (send_all cs g)) = sent (network_stats g).
Proof.
  intros Hoff.
  assert (Hid : send_all cs g = g).
  { unfold send_all. induction cs as [|c cs IH]; simpl; [reflexivity|].
    rewrite send_gaze_data_inactive by exact Hoff. exact IH. }
  rewrite Hid. auto.
Qed.

End GazeFacts.

Lemma eq_str_true (v : option json) (s : string) :
  eq_str v s = true <-> v = Some (JStr s).
Proof.
  unfold eq_str. split.
  - destruct v as [[]|]; try discriminate.
    intros H. apply String.eqb_eq in H. now subst.
  - intros ->. apply String.eqb_refl.
Qed.

Section GazeReceive.
Import Gaze.


Lemma receive_step_set_sharing (b : bool) (r : recv) (g : globals) :
  receive_gaze_data_step r (set_sharing b g)
  = set_sharing b (receive_gaze_data_step r g).
Proof.
  destruct r as [| |[[]|]]; simpl; try reflexivity.
  now destruct (eq_str _ _).
Qed.

Lemma receive_set_sharing (b : bool) (rs : list recv) (g : globals) :
  receive_gaze_data rs (set_sharing b g)
  = set_sharing b (receive_gaze_data rs g).
Proof.
  unfold receive_gaze_data. revert g.
  induction rs as [|r rs IH]; intros g; simpl; [reflexivity|].
  now rewrite receive_step_set_sharing, IH.
Qed.

Lemma receive_snoc (rs : list recv) (r : recv) (g : globals) :
  receive_gaze_data (rs ++ [r]) g
  = receive_gaze_data_step r (receive_gaze_data rs g).
Proof. unfold receive_gaze_data. now rewrite foldl_app. Qed.

(** C6: the receive loop does not look at the sharing flag, and a datagram
    it accepts (origin 'A') overwrites the stored remote sample, whatever
    was received before it and whatever the timestamps are: every field
    the datagram carries takes the datagram's value, and when the datagram
    carries every stored field, as a complete sample does, the stored
    sample is the datagram. *)
Theorem receive_gaze_last_wins (b : bool) (rs : list recv) (g : globals)
    (gaze_info : dict) :
  gaze_info !! "computer" = Some (JStr "A") ->
  let before := receive_gaze_data rs (set_sharing b g) in
  let after :=
    receive_gaze_data (rs ++ [RecvData (Some (JObj gaze_info))])
      (set_sharing b g) in
  GAZE_SHARING_ACTIVE after = b
  /\ remote_gaze_data after
     = remote_gaze_data
         (receive_gaze_data (rs ++ [RecvData (Some (JObj gaze_info))])
            (set_sharing (negb b) g))
  /\ (forall k v, gaze_info !! k = Some v ->
        remote_gaze_data after !! k = Some v)
  /\ (dom (remote_gaze_data before) ⊆ dom gaze_info ->
        remote_gaze_data after = gaze_info)
  /\ received (network_stats after) = S (received (network_stats before)).
Proof.
  intros HA before after. subst before after.
  rewrite !receive_snoc, !receive_set_sharing.
  set (g1 := receive_gaze_data rs g).
  apply eq_str_true in HA.
  simpl. rewrite HA. simpl.
  repeat split.
  - intros k v Hk. unfold dict_update.
    apply lookup_union_Some_l. exact Hk.
  - intros Hdom. unfold dict_update.
    apply map_eq. intros k.
    destruct (gaze_info !! k) as [v|] eqn:Hk.
    + now apply lookup_union_Some_l.
    + apply lookup_union_None. split; [exact Hk|].
      apply not_elem_of_dom. intros Hin. apply Hdom in Hin.
      apply elem_of_dom in Hin. rewrite Hk in Hin. now destruct Hin.
Qed.

(** C9: a [recvfrom] result that is not a dictionary naming 'A' as its
    origin (another origin, no origin, a value that is no dictionary, an
    undecodable datagram, a timeout, an error) leaves the stored remote
    sample and the received counter as they were. *)
Theorem receive_gaze_only_from_A (r : recv) (g : globals) :
  from_A r = false ->
  remote_gaze_data (receive_gaze_data_step r g) = remote_gaze_data g
  /\ received (network_stats (receive_gaze_data_step r g))
     = received (network_stats g).
Proof.
  intros H. destruct r as [| |[[]|]]; simpl in *; try (split; reflexivity).
  rewrite H. split; reflexivity.
Qed.

End GazeReceive.

(** ** Properties of the control channel *)

Section SyncFacts.
Import Sync.

Lemma or_empty_default (data : option dict) : or_empty data = default ∅ data.
Proof.
  destruct data as [d|]; simpl; [|reflexivity].
  destruct (Nat.eqb (size d) 0) eqn:E; [|reflexivity].
  apply Nat.eqb_eq in E. symmetry. now apply map_size_empty_iff.
Qed.

Lemma leading_raises_lt (l : list outcome) (n : nat) :
  leading_raises l < n <-> exists i, i < n /\ l !! i <> Some Raise.
Proof.
  revert n. induction l as [|[] l IH]; intros n; simpl.
  - split; [intros H; exists 0; split; [lia|discriminate]|].
    intros (i & Hi & _). lia.
  - split; [intros H; exists 0; split; [lia|discriminate]|].
    intros (i & Hi & _). lia.
  - destruct n as [|n]; [split; [lia|intros (i & Hi & _); lia]|].
    rewrite <- Nat.succ_lt_mono, IH. split.
    + intros (i & Hi & Hne). exists (S i). split; [lia|exact Hne].
    + intros ([|i] & Hi & Hne); [now elim Hne|].
      exists i. split; [lia|exact Hne].
Qed.

Lemma send_loop_spec (n : nat) (pkt : dict) (s : udp_socket)
    (l : list event) :
  let k := leading_raises (script s) in
  send_loop n pkt s l =
    if k <? n
    then (true, {| script := drop (S k) (script s); wire := wire s ++ [pkt] |},
          l ++ failed_attempts pkt k ++ [EvSendto pkt Ok])
    else (false, {| script := drop n (script s); wire := wire s |},
          l ++ failed_attempts pkt n).
Proof.
  revert s l. induction n as [|n IH]; intros [sc w] l; simpl.
  - now rewrite app_nil_r.
  - unfold sendto; simpl. destruct sc as [|[] sc]; simpl.
    + reflexivity.
    + now rewrite drop_0.
    + rewrite IH; simpl.
      change (S (leading_raises sc) <? S n) with (leading_raises sc <? n).
      destruct (leading_raises sc <? n); now rewrite <- app_assoc.
Qed.

Lemma send_message_queue message_type data n now (c : RobustSyncClient) :
  message_queue (send_message message_type data n now c).2 = message_queue c.
Proof.
  unfold send_message. destruct (socket c); [|reflexivity].
  now destruct (send_loop _ _ _ _) as [[r s'] l'].
Qed.

Lemma send_message_running message_type data n now (c : RobustSyncClient) :
  running (send_message message_type data n now c).2 = running c.
Proof.
  unfold send_message. destruct (socket c); [|reflexivity].
  now destruct (send_loop _ _ _ _) as [[r s'] l'].
Qed.

Lemma send_loop_log n pkt s l :
  exists sends, (send_loop n pkt s l).2 = l ++ sends
                /\ Forall (fun e => is_put e = false) sends.
Proof.
  revert s l. induction n as [|n IH]; intros s l; simpl.
  - exists []. now rewrite app_nil_r.
  - destruct (sendto pkt s) as [[] s'].
    + exists [EvSendto pkt Ok]. split; [reflexivity|]. now repeat constructor.
    + destruct (IH s' (l ++ [EvSendto pkt Raise; EvSleep backoff]))
        as (sends & -> & Hs).
      exists (EvSendto pkt Raise :: EvSleep backoff :: sends).
      split; [now rewrite <- app_assoc|]. now repeat constructor.
Qed.

Lemma send_message_log message_type data n now (c : RobustSyncClient) :
  exists sends, log (send_message message_type data n now c).2 = log c ++ sends
                /\ Forall (fun e => is_put e = false) sends.
Proof.
  unfold send_message. destruct (socket c) as [s|].
  - destruct (send_loop_log n (envelope message_type now data) s (log c))
      as (sends & H & Hs).
    destruct (send_loop _ _ _ _) as [[r s'] l']. simpl in *. eauto.
  - exists []. now rewrite app_nil_r.
Qed.

Lemma stamp_type (i : rx) (message : dict) :
  stamp i message !! "type" = message !! "type".
Proof. unfold stamp. now rewrite !lookup_insert_ne. Qed.

(** What the receive loop does with a datagram that decodes to a
    dictionary. *)
Lemma receive_step_dict (i : rx) (message : dict) (c : RobustSyncClient) :
  rx_recv i = RecvData (Some (JObj message)) ->
  receive_messages_step i c =
    if eq_str (message !! "type") "ping"
    then (send_message "pong" (Some pong_data) 3 (rx_reply_time i)
            (put (stamp i message) c)).2
    else put (stamp i message) c.
Proof.
  intros H. unfold receive_messages_step. rewrite H.
  now rewrite stamp_type.
Qed.

(** C10: a datagram that decodes to a dictionary, whatever its type (the
    heartbeats [ping] and [pong] too), is put at the tail of the inbound
    queue with its type unchanged; the put is the first thing the loop
    does with it, so any [sendto] of an automatic reply comes after it;
    and a consumer finds it there: on a queue that was empty,
    [get_message] returns it. *)
Theorem decoded_message_enqueued (i : rx) (message : dict)
    (c : RobustSyncClient) :
  rx_recv i = RecvData (Some (JObj message)) ->
  let c' := receive_messages_step i c in
  message_queue c' = message_queue c ++ [stamp i message]
  /\ stamp i message !! "type" = message !! "type"
  /\ (exists replies,
        log c' = log c ++ EvPut (stamp i message) :: replies
        /\ Forall (fun e => is_put e = false) replies)
  /\ (message_queue c = [] ->
        get_message [] c' = (Some (stamp i message), with_queue [] c')).
Proof.
  intros H c'. subst c'. rewrite (receive_step_dict i message c H).
  assert (Hq : message_queue
                 (if eq_str (message !! "type") "ping"
                  then (send_message "pong" (Some pong_data) 3
                          (rx_reply_time i) (put (stamp i message) c)).2
                  else put (stamp i message) c)
               = message_queue c ++ [stamp i message]).
  { destruct (eq_str _ _); [now rewrite send_message_queue|reflexivity]. }
  split; [exact Hq|]. split; [apply stamp_type|]. split.
  - destruct (eq_str _ _).
    + destruct (send_message_log "pong" (Some pong_data) 3 (rx_reply_time i)
                  (put (stamp i message) c)) as (sends & -> & Hs).
      exists sends. simpl. now rewrite <- app_assoc.
    + exists []. split; [reflexivity|constructor].
  - intros Hempty. unfold get_message. simpl.
    rewrite Hq, Hempty. reflexivity.
Qed.

Lemma filter_pong_wire (ty : string) (w extra : list dict) :
  filter (fun pkt : dict => eq_str (pkt !! "type") ty = true) (w ++ extra)
  = filter (fun pkt : dict => eq_str (pkt !! "type") ty = true) w
    ++ filter (fun pkt : dict => eq_str (pkt !! "type") ty = true) extra.
Proof. apply filter_app. Qed.

(** C8 (as amended): for a datagram that decodes to a dictionary of type
    [ping], the receive loop makes one [send_message] of a [pong], of at
    most three [sendto] attempts.  Whatever the state of the client, so
    whatever arrived before: at most one [pong] goes on the wire; exactly
    one when one of the three attempts does not raise; none when all three
    raise.  A dictionary of another type puts nothing on the wire. *)
Theorem ping_pong_at_most_once (i : rx) (message : dict)
    (c : RobustSyncClient) (s : udp_socket) :
  rx_recv i = RecvData (Some (JObj message)) ->
  socket c = Some s ->
  let c' := receive_messages_step i c in
  let pong := envelope "pong" (rx_reply_time i) (Some pong_data) in
  let k := leading_raises (script s) in
  (message !! "type" = Some (JStr "ping") ->
     socket c' = Some {| script := drop (if k <? 3 then S k else 3) (script s);
                         wire := wire s ++ (if k <? 3 then [pong] else []) |}
     /\ sent_of_type "pong" c'
        = sent_of_type "pong" c ++ (if k <? 3 then [pong] else []))
  /\ (message !! "type" <> Some (JStr "ping") -> socket c' = socket c).
Proof.
  intros Hrx Hs c' pong k. subst c'.
  rewrite (receive_step_dict i message c Hrx). split.
  - intros Hping. apply eq_str_true in Hping. rewrite Hping.
    assert (Hsock :
      socket (send_message "pong" (Some pong_data) 3 (rx_reply_time i)
                (put (stamp i message) c)).2
      = Some {| script := drop (if k <? 3 then S k else 3) (script s);
                wire := wire s ++ (if k <? 3 then [pong] else []) |}).
    { unfold send_message.
      change (socket (put (stamp i message) c)) with (socket c).
      rewrite Hs, send_loop_spec. fold k.
      destruct (k <? 3); simpl; [reflexivity|now rewrite app_nil_r]. }
    split; [exact Hsock|].
    unfold sent_of_type. rewrite Hsock, Hs. simpl.
    rewrite filter_pong_wire. f_equal.
    destruct (k <? 3); [|reflexivity].
    rewrite filter_cons_True; [reflexivity|].
    apply eq_str_true. subst pong. unfold envelope. now simplify_map_eq.
  - intros Hne. destruct (eq_str (message !! "type") "ping") eqn:E.
    + apply eq_str_true in E. contradiction.
    + reflexivity.
Qed.






Lemma envelope_type message_type now data :
  envelope message_type now data !! "type" = Some (JStr message_type).
Proof. unfold envelope. now simplify_map_eq. Qed.

Lemma attempts_put (ty : string) (m : dict) (c : RobustSyncClient) :
  attempts ty (put m c) = attempts ty c.
Proof.
  unfold attempts, put. simpl. rewrite filter_app.
  rewrite filter_cons_False by (simpl; discriminate).
  now rewrite filter_nil, app_nil_r.
Qed.

Lemma send_loop_other_type (ty : string) n pkt s l :
  eq_str (pkt !! "type") ty = false ->
  filter (fun e => is_attempt ty e = true) (send_loop n pkt s l).2
  = filter (fun e => is_attempt ty e = true) l.
Proof.
  intros Hty. revert s l. induction n as [|n IH]; intros s l; simpl;
    [reflexivity|].
  destruct (sendto pkt s) as [[] s'].
  - simpl. rewrite filter_app, filter_cons_False, filter_nil, app_nil_r;
      [reflexivity|]. simpl. now rewrite Hty.
  - rewrite IH, filter_app.
    rewrite filter_cons_False by (simpl; now rewrite Hty).
    rewrite filter_cons_False by (simpl; discriminate).
    now rewrite filter_nil, app_nil_r.
Qed.

(** A [send_message] makes no attempt for a datagram of another type. *)
Lemma send_message_other_type (ty message_type : string) data n now
    (c : RobustSyncClient) :
  String.eqb message_type ty = false ->
  attempts ty (send_message message_type data n now c).2 = attempts ty c.
Proof.
  intros Hne. unfold send_message, attempts.
  destruct (socket c) as [s|]; [|reflexivity].
  pose proof (send_loop_other_type ty n (envelope message_type now data) s
                (log c)) as H.
  destruct (send_loop _ _ _ _) as [[r s'] l']. simpl in *. apply H.
  unfold eq_str. now rewrite envelope_type.
Qed.

(** The receive thread only ever sends [pong]. *)
Lemma receive_step_attempts (ty : string) (i : rx) (c : RobustSyncClient) :
  String.eqb "pong" ty = false ->
  attempts ty (receive_messages_step i c) = attempts ty c.
Proof.
  intros Hne. unfold receive_messages_step.
  destruct (rx_recv i) as [| |[[]|]]; try reflexivity.
  destruct (eq_str _ _).
  - now rewrite send_message_other_type, attempts_put.
  - apply attempts_put.
Qed.

Lemma receive_messages_attempts (ty : string) (rs : list rx)
    (c : RobustSyncClient) :
  String.eqb "pong" ty = false ->
  attempts ty (_receive_messages rs c) = attempts ty c.
Proof.
  intros Hne. revert c. induction rs as [|i rs IH]; intros c; simpl;
    [reflexivity|].
  destruct (running c); [|reflexivity].
  now rewrite IH, receive_step_attempts.
Qed.

(** Nor does a wait on the queue send anything else. *)
Lemma wait_for_message_attempts (ty expected_type : string) (timeout t0 : Q)
    (sched : list tick) (c c' : RobustSyncClient) (r : option dict) :
  String.eqb "pong" ty = false ->
  wait_for_message expected_type timeout t0 sched c = Some (r, c') ->
  attempts ty c' = attempts ty c /\ closed c' = closed c.
Proof.
  intros Hne. revert c. induction sched as [|tk sched IH]; intros c; simpl;
    [discriminate|].
  assert (Hclosed_step : forall i c0, closed (receive_messages_step i c0) = closed c0).
  { intros i c0. unfold receive_messages_step.
    destruct (rx_recv i) as [| |[[]|]]; try reflexivity.
    destruct (eq_str _ _); [|reflexivity].
    unfold send_message. destruct (socket _); [|reflexivity].
    now destruct (send_loop _ _ _ _) as [[? ?] ?]. }
  assert (Hclosed : forall rs c0, closed (_receive_messages rs c0) = closed c0).
  { induction rs as [|i rs IHrs]; intros c0; simpl; [reflexivity|].
    destruct (running c0); [|reflexivity]. now rewrite IHrs, Hclosed_step. }
  destruct (in_time timeout t0 tk).
  - destruct (message_queue (_receive_messages (tick_rx tk) c))
      as [|h rest] eqn:Hq.
    + intros H. apply IH in H as [H1 H2].
      now rewrite H1, H2, receive_messages_attempts, Hclosed.
    + destruct (eq_str (h !! "type") expected_type).
      * intros [= <- <-]. split.
        -- unfold attempts. simpl. now apply receive_messages_attempts.
        -- simpl. apply Hclosed.
      * intros H. apply IH in H as [H1 H2].
        rewrite H1, H2, attempts_put. simpl. rewrite Hclosed. simpl.
        rewrite Hclosed. split; [|reflexivity].
        rewrite receive_messages_attempts by exact Hne.
        unfold attempts. simpl. now apply receive_messages_attempts.
  - now intros [= <- <-].
Qed.

(** C7: [send_message] builds the envelope with the type, the clock
    reading and the payload (an empty dictionary when there is none), and
    tries [sendto] until one call does not raise, at most [retry_count]
    times, sleeping the fixed back-off after each failure.  It returns
    true exactly when one of the first [retry_count] calls does not raise;
    then that one datagram is on the wire.  It returns false when all of
    them raise, or when there is no socket; then nothing is on the wire.
    Nothing beyond the local [sendto] decides the result. *)
Theorem send_message_retries (message_type : string) (data : option dict)
    (retry_count : nat) (now : Q) (c : RobustSyncClient) :
  let pkt := envelope message_type now data in
  let r := send_message message_type data retry_count now c in
  (pkt !! "type" = Some (JStr message_type)
   /\ pkt !! "timestamp" = Some (JNum now)
   /\ pkt !! "data" = Some (JObj (default ∅ data)))
  /\ match socket c with
     | None => r = (false, c)
     | Some s =>
         let k := leading_raises (script s) in
         (r.1 = true <-> exists i, i < retry_count /\ script s !! i <> Some Raise)
         /\ (r.1 = false <-> forall i, i < retry_count -> script s !! i = Some Raise)
         /\ log r.2 = log c ++ failed_attempts pkt (min k retry_count)
                        ++ (if r.1 then [EvSendto pkt Ok] else [])
         /\ socket r.2
            = Some {| script := drop (if r.1 then S k else retry_count) (script s);
                      wire := wire s ++ (if r.1 then [pkt] else []) |}
         /\ message_queue r.2 = message_queue c
     end.
Proof.
  intros pkt r. split.
  - subst pkt. unfold envelope. rewrite <- or_empty_default.
    repeat split; now simplify_map_eq.
  - subst r. unfold send_message. destruct (socket c) as [s|] eqn:Hs; [|reflexivity].
    fold pkt. rewrite send_loop_spec. cbv zeta.
    pose proof (leading_raises_lt (script s) retry_count) as Hlt.
    destruct (leading_raises (script s) <? retry_count) eqn:E; simpl.
    + apply Nat.ltb_lt in E. rewrite Nat.min_l by lia.
      split; [|split; [|split; [|split]]]; try reflexivity.
      * split; [intros _; now apply Hlt|reflexivity].
      * split; [discriminate|].
        intros Hall. apply Hlt in E as (i & Hi & Hne). elim Hne. now apply Hall.
    + apply Nat.ltb_ge in E. rewrite Nat.min_r by lia.
      rewrite !app_nil_r.
      split; [|split; [|split; [|split]]]; try reflexivity.
      * split; [discriminate|]. intros Hex. apply Hlt in Hex. lia.
      * split; [|reflexivity]. intros _ i Hi.
        destruct (script s !! i) as [[]|] eqn:Hi'; [|reflexivity|];
          (exfalso; assert (leading_raises (script s) < retry_count); [|lia];
           apply Hlt; exists i; split; [lia|rewrite Hi'; discriminate]).
Qed.

End SyncFacts.

(** ** Properties of the stage coordinator *)

Section CoordinatorFacts.
Import Coordinator.

Lemma settles_same (st st' : coordinator) :
  race st' = race st -> settles st st'.
Proof.
  intros H. repeat split; try (intros; exact H).
  injection H as H _ _. intros H0 H1. rewrite H, H0 in H1. discriminate.
Qed.

Lemma settles_trans (a b c : coordinator) :
  settles a b -> settles b c -> settles a c.
Proof.
  intros (A1 & A2 & A3) (B1 & B2 & B3). repeat split.
  - intros H. rewrite <- (A1 H). apply B1.
    specialize (A1 H). injection A1 as -> _ _. exact H.
  - intros H. rewrite <- A2; [now apply B2|].
    specialize (B2 H). injection B2 as <- _ _. exact H.
  - intros Ha Hc. destruct (is_None (first_responder b)) eqn:Hb.
    + now apply B3.
    + specialize (B1 eq_refl). injection B1 as _ _ ->. now apply A3.
Qed.

Lemma settles_record_first who what (st : coordinator) :
  settles st (record_first who what st).
Proof.
  unfold record_first. destruct (is_None (first_responder st)) eqn:H.
  - repeat split; simpl; intros; congruence || reflexivity.
  - now apply settles_same.
Qed.

Lemma settles_check_client (i : turn) (st : coordinator) :
  settles st (flow_state (check_client i st)).
Proof.
  unfold check_client.
  destruct (received_client st); simpl.
  - destruct (existsb _ _); now apply settles_same.
  - destruct (turn_keys i) as [|[k rt] ks]; [now apply settles_same|].
    destruct (is_escape k); [now apply settles_same|]. simpl.
    eapply settles_trans; [|apply settles_same; reflexivity].
    eapply settles_trans; [|apply settles_record_first].
    now apply settles_same.
Qed.

Lemma settles_check_server (i : turn) (st : coordinator) :
  settles st (flow_state (check_server i st)).
Proof.
  unfold check_server.
  destruct (Sync.wait_for_message _ _ _ _ _) as [[[resp_msg|] c]|];
    try (now apply settles_same).
  destruct (size resp_msg =? 0); [now apply settles_same|].
  destruct (eq_str (resp_msg !! "type") "response_update");
    [|now apply settles_same].
  destruct (data_of resp_msg) as [resp_data|]; [|now apply settles_same].
  destruct (eq_str (resp_data !! "responder") "server");
    [|now apply settles_same].
  change (received_server (set_sync_client c st)) with (received_server st).
  destruct (received_server st); [now apply settles_same|]. simpl.
  eapply settles_trans; [|apply settles_record_first].
  now apply settles_same.
Qed.

Lemma settles_response_turn (i : turn) (st : coordinator) :
  settles st (flow_state (response_turn i st)).
Proof.
  unfold response_turn.
  destruct (target_position st); [|now apply settles_same].
  pose proof (settles_check_client i st) as Hc.
  destruct (check_client i st) as [st1| |]; try exact Hc.
  eapply settles_trans; [exact Hc|apply settles_check_server].
Qed.

Lemma settles_response_loop (turns : list turn) (st : coordinator) :
  settles st (flow_state (response_loop turns st)).
Proof.
  revert st. induction turns as [|i turns IH]; intros st; simpl.
  - destruct (_ && _); now apply settles_same.
  - destruct (_ && _); [now apply settles_same|].
    pose proof (settles_response_turn i st) as Ht.
    destruct (response_turn i st) as [st1| |]; try exact Ht.
    eapply settles_trans; [exact Ht|apply IH].
Qed.

(** C4: in a response stage [first_responder], [first_response] and the
    colour of the target square move at most once.  Whatever keys are
    pressed and whatever messages arrive, in whatever number of turns of
    the loop and however the loop ends: once a first response is recorded
    ([first_responder] is no longer [None]) the three stay as they are;
    as long as none is recorded they stay as they are; and when one gets
    recorded the square is green.  The stage starts with none recorded
    and the square red. *)
Theorem first_response_recorded_once (turns : list turn) (st : coordinator) :
  let st' := flow_state (response_loop turns st) in
  (is_None (first_responder st) = false -> race st' = race st)
  /\ (is_None (first_responder st') = true -> race st' = race st)
  /\ (is_None (first_responder st) = true ->
      is_None (first_responder st') = false ->
      target_square_color st' = "green")
  /\ (forall ack_time, race (response_entry ack_time st) = (JNull, JNull, "red")).
Proof.
  intros st'. destruct (settles_response_loop turns st) as (H1 & H2 & H3).
  repeat split; assumption || reflexivity.
Qed.

Lemma feedback_loop_state (trial_score : json) (clock : list Q)
    (st : coordinator) :
  flow_state (feedback_loop trial_score clock st) = st.
Proof.
  induction clock as [|t clock IH]; simpl; [reflexivity|].
  destruct (Sync.Qltb t 1); [|reflexivity].
  destruct (is_number trial_score); [exact IH|reflexivity].
Qed.

(** C2 (what the code does): handling [stage_feedback] sets the sharing
    flag to false on entry; the flag is false when the feedback loop is
    entered, so a gaze sample submitted then is dropped; and it is false in
    whatever state the stage ends. *)
Theorem stage_feedback_sharing_off (message : dict) (ack_time : Q)
    (clock : list Q) (st : coordinator) :
  sharing (flow_state (stage_feedback message ack_time clock st)) = false
  /\ (forall feedback_data : dict,
        let entered :=
          feedback_entry feedback_data ack_time (set_sharing false st) in
        sharing entered = false
        /\ forall x y valid now,
             Gaze.send_gaze_data x y valid now (gaze entered) = gaze entered).
Proof.
  split.
  - unfold stage_feedback. destruct (data_of message) as [fd|]; [|reflexivity].
    pose proof (feedback_loop_state (get_or fd "trial_score" (JNum 0)) clock
                  (feedback_entry fd ack_time (set_sharing false st))) as Hl.
    destruct (feedback_loop _ _ _) as [st1|how st1|st1]; simpl in Hl; subst st1.
    + simpl. destruct (target_position st); reflexivity.
    + reflexivity.
    + reflexivity.
  - intros fd entered. split; [reflexivity|].
    intros x y valid now. now apply send_gaze_data_inactive.
Qed.

(** C3 (as amended): when the wait for [start_experiment] times out,
    [run_synchronized_experiment] returns at once.  No stage is run, so
    there is no trial record; neither [end_experiment] nor [ack_start] is
    sent or attempted; the client is not closed and nothing is saved; the
    gaze state is untouched.  And inside response collection a wait for
    [response_update] that times out ends the turn, not the stage: the
    loop goes on. *)
Theorem start_timeout_returns (w : world) (g : Gaze.globals)
    (c' : Sync.RobustSyncClient) :
  gaze_network_ok w = true ->
  Sync.wait_for_message "start_experiment" 60 (start_time w) (start_sched w)
    (Sync.start_client (sync_socket w) Sync.new) = Some (None, c') ->
  let r := run_synchronized_experiment w g in
  (r = Leave Return (set_sync_client c' (initial g))
   /\ Sync.attempts "end_experiment" (sync_client (flow_state r)) = []
   /\ Sync.attempts "ack_start" (sync_client (flow_state r)) = []
   /\ Sync.closed (sync_client (flow_state r)) = false
   /\ data_log (flow_state r) = []
   /\ saved (flow_state r) = None
   /\ gaze (flow_state r) = g)
  /\ (forall (i : turn) (st st1 : coordinator) (c1 : Sync.RobustSyncClient),
        target_position st <> None ->
        check_client i st = Next st1 ->
        Sync.wait_for_message "response_update" (1 # 10) (turn_wait_start i)
          (turn_sched i) (sync_client st1) = Some (None, c1) ->
        response_turn i st = Next (set_sync_client c1 st1)).
Proof.
  intros Hok Hwait r. split.
  - assert (Hr : r = Leave Return (set_sync_client c' (initial g))).
    { subst r. unfold run_synchronized_experiment. rewrite Hok. simpl.
      simpl in Hwait. now rewrite Hwait. }
    rewrite Hr. simpl.
    destruct (wait_for_message_attempts "end_experiment" _ _ _ _ _ _ _
                eq_refl Hwait) as [He Hc].
    destruct (wait_for_message_attempts "ack_start" _ _ _ _ _ _ _
                eq_refl Hwait) as [Ha _].
    rewrite He, Ha, Hc. repeat split; reflexivity.
  - intros i st st1 c1 Htp Hc Hw. unfold response_turn.
    destruct (target_position st); [|contradiction].
    rewrite Hc. unfold check_server. now rewrite Hw.
Qed.

End CoordinatorFacts.

(** ** The gaze channel under any interleaving *)

Section GazeRunFacts.
Import Gaze GazeRun.

Lemma sample_computer x y valid now :
  sample x y valid now !! "computer" = Some (JStr "B").
Proof. unfold sample. now simplify_map_eq. Qed.

(** What one action does to the sending side. *)
Lemma act_sending (a : action) (g : globals) :
  exists new,
    wire (send_socket (act a g)) = wire (send_socket g) ++ new
    /\ sent (network_stats (act a g)) = sent (network_stats g) + length new
    /\ Forall (fun d : dict => d !! "computer" = Some (JStr "B")) new
    /\ length new <= (if is_submit a then 1 else 0)
    /\ (GAZE_SHARING_ACTIVE g = false -> is_submit a = true -> new = []).
Proof.
  destruct a as [c|r|b]; simpl.
  - unfold send_gaze_data.
    destruct (GAZE_SHARING_ACTIVE g) eqn:E; simpl.
    + unfold sendto. destruct (script (send_socket g)) as [|[] rest]; simpl.
      * eexists [_]. rewrite Nat.add_1_r.
        repeat split; auto using sample_computer. discriminate.
      * eexists [_]. rewrite Nat.add_1_r.
        repeat split; auto using sample_computer. discriminate.
      * exists []. rewrite app_nil_r, Nat.add_0_r.
        repeat split; auto.
    + exists []. rewrite app_nil_r, Nat.add_0_r. repeat split; auto.
  - exists []. rewrite app_nil_r, Nat.add_0_r.
    destruct r as [| |[[]|]]; simpl; try (repeat split; auto; discriminate).
    destruct (eq_str _ _); simpl; repeat split; auto; discriminate.
  - exists []. rewrite app_nil_r, Nat.add_0_r.
    repeat split; auto; discriminate.
Qed.

(** X1: whatever the foreground loop, the receive thread and the
    coordinator do to the gaze globals, in whatever order, the sent counter
    counts exactly the datagrams handed to the network: the wire only
    grows, the counter grows by the number of new datagrams, there is at
    most one of them per submitted sample, and each names 'B' as its
    origin. *)
Theorem gaze_sent_counts_wire (acts : list action) (g : globals) :
  exists new,
    wire (send_socket (run acts g)) = wire (send_socket g) ++ new
    /\ sent (network_stats (run acts g))
       = sent (network_stats g) + length new
    /\ Forall (fun d : dict => d !! "computer" = Some (JStr "B")) new
    /\ length new <= count is_submit acts.
Proof.
  unfold run, count. revert g.
  induction acts as [|a acts IH]; intros g; simpl.
  - exists []. now rewrite app_nil_r, Nat.add_0_r.
  - destruct (IH (act a g)) as (new2 & Hw2 & Hs2 & Hb2 & Hl2).
    destruct (act_sending a g) as (new1 & Hw1 & Hs1 & Hb1 & Hl1 & _).
    exists (new1 ++ new2). rewrite Hw2, Hw1, Hs2, Hs1, length_app.
    repeat split.
    + now rewrite app_assoc.
    + lia.
    + now apply Forall_app.
    + destruct (is_submit a) eqn:Ea.
      * rewrite filter_cons_True by exact Ea. simpl. lia.
      * rewrite filter_cons_False by (rewrite Ea; discriminate). lia.
Qed.

(** X2: a sample built by [send_gaze_data] is one that
    [receive_gaze_data] ignores: should a datagram of this station come
    back to its own receive socket, the stored remote sample and every
    counter stay as they are. *)
Theorem own_sample_is_ignored (x y : Q) (valid : bool) (now : Q)
    (g : globals) :
  receive_gaze_data_step (RecvData (Some (JObj (sample x y valid now)))) g = g.
Proof.
  simpl. unfold eq_str. now rewrite sample_computer.
Qed.

Lemma receive_step_sending (r : recv) (g : globals) :
  send_socket (receive_gaze_data_step r g) = send_socket g
  /\ sent (network_stats (receive_gaze_data_step r g)) = sent (network_stats g)
  /\ dom (remote_gaze_data g) ⊆ dom (remote_gaze_data (receive_gaze_data_step r g))
  /\ received (network_stats (receive_gaze_data_step r g))
     + errors (network_stats (receive_gaze_data_step r g))
     + (if r is RecvTimeout then 1 else 0)
     + (if from_A r then 0
        else if r is RecvData (Some (JObj _)) then 1 else 0)
     = S (received (network_stats g) + errors (network_stats g)).
Proof.
  destruct r as [| |[[]|]]; simpl; try (repeat split; auto; lia).
  destruct (eq_str _ _); simpl; repeat split; auto; try lia.
  unfold dict_update. rewrite dom_union. set_solver.
Qed.


End GazeRunFacts.

(** ** The control channel over whole runs *)

Section SyncRunFacts.
Import Sync SyncRun.

Lemma send_message_closed message_type data n now (c : RobustSyncClient) :
  closed (send_message message_type data n now c).2 = closed c.
Proof.
  unfold send_message. destruct (socket c); [|reflexivity].
  now destruct (send_loop _ _ _ _) as [[r s'] l'].
Qed.

Lemma receive_step_enqueues (i : rx) (c : RobustSyncClient) :
  message_queue (receive_messages_step i c)
  = message_queue c ++ option_list (enqueues i)
  /\ running (receive_messages_step i c) = running c
  /\ closed (receive_messages_step i c) = closed c.
Proof.
  unfold receive_messages_step, enqueues.
  destruct (rx_recv i) as [| |[[]|]]; simpl;
    try (now rewrite app_nil_r).
  destruct (eq_str _ _); [|now repeat split].
  now rewrite send_message_queue, send_message_running, send_message_closed.
Qed.

Lemma receive_loop_state (rs : list rx) (c : RobustSyncClient) :
  message_queue (_receive_messages rs c)
  = message_queue c ++ (if running c then enqueued rs else [])
  /\ running (_receive_messages rs c) = running c
  /\ closed (_receive_messages rs c) = closed c.
Proof.
  revert c. induction rs as [|i rs IH]; intros c; simpl.
  - destruct (running c); now rewrite app_nil_r.
  - destruct (running c) eqn:Hr; [|now rewrite app_nil_r].
    destruct (receive_step_enqueues i c) as (Hq & Hrun & Hcl).
    destruct (IH (receive_messages_step i c)) as (IHq & IHr & IHc).
    rewrite IHq, IHr, IHc, Hq, Hrun, Hcl, Hr.
    repeat split. unfold enqueued. simpl.
    destruct (enqueues i); simpl; now rewrite <- app_assoc.
Qed.

Lemma receive_loop_queue (rs : list rx) (c : RobustSyncClient) :
  message_queue (_receive_messages rs c)
  = message_queue c ++ (if running c then enqueued rs else []).
Proof. apply receive_loop_state. Qed.

(** X4: the receive loop puts on the queue, in the order of arrival,
    exactly the datagrams that decode to a dictionary, each with its
    sender address and receipt time; a datagram that does not decode, or
    decodes to something else, a timeout and an error put nothing there.
    A client that is not running (not started, or closed) takes nothing
    in. *)
Theorem receive_loop_enqueues_in_order (rs : list rx) (c : RobustSyncClient) :
  message_queue (_receive_messages rs c)
  = message_queue c ++ (if running c then enqueued rs else [])
  /\ (forall m, m ∈ enqueued rs <->
        exists i message, i ∈ rs
          /\ rx_recv i = RecvData (Some (JObj message))
          /\ m = stamp i message)
  /\ _receive_messages rs (close c) = close c.
Proof.
  split; [apply receive_loop_queue|]. split.
  - intros m. unfold enqueued. rewrite list_elem_of_omap. split.
    + intros (i & Hi & Hm). unfold enqueues in Hm.
      destruct (rx_recv i) as [| |[[]|]] eqn:Hrx; try discriminate.
      injection Hm as <-. eauto.
    + intros (i & message & Hi & Hrx & ->). exists i. split; [exact Hi|].
      unfold enqueues. now rewrite Hrx.
  - now destruct rs.
Qed.

(** X5: the application gets the messages in the order they arrived.
    With nothing queued, [get_message] returns the first datagram that
    decoded to a dictionary while it was waiting, and leaves the later ones
    queued in their order; it returns [None] when there was none. *)
Theorem get_message_first_arrival (rs : list rx) (c : RobustSyncClient) :
  running c = true ->
  message_queue c = [] ->
  (get_message rs c).1 = head (enqueued rs)
  /\ message_queue (get_message rs c).2 = tail (enqueued rs).
Proof.
  intros Hr Hq. unfold get_message.
  pose proof (receive_loop_queue rs c) as H. rewrite Hr, Hq in H. simpl in H.
  destruct (enqueued rs) as [|m rest]; rewrite H; simpl.
  - split; [reflexivity|exact H].
  - split; reflexivity.
Qed.

Lemma send_message_wire message_type data n now (c : RobustSyncClient)
    (s : udp_socket) :
  socket c = Some s ->
  let k := leading_raises (script s) in
  socket (send_message message_type data n now c).2
  = Some {| script := drop (if k <? n then S k else n) (script s);
            wire := wire s ++ (if k <? n
                               then [envelope message_type now data]
                               else []) |}
  /\ (send_message message_type data n now c).1 = (k <? n).
Proof.
  intros Hs k. unfold send_message. rewrite Hs, send_loop_spec. fold k.
  destruct (k <? n); simpl; [now split|]. now rewrite app_nil_r.
Qed.

Lemma receive_step_wire (i : rx) (c : RobustSyncClient) (s : udp_socket) :
  socket c = Some s ->
  let k := leading_raises (script s) in
  socket (receive_messages_step i c)
  = Some (if is_ping i
          then {| script := drop (if k <? 3 then S k else 3) (script s);
                  wire := wire s ++ (if k <? 3 then [pong_for i] else []) |}
          else s).
Proof.
  intros Hs k. unfold receive_messages_step, is_ping, enqueues.
  destruct (rx_recv i) as [| |[[]|]]; try exact Hs.
  destruct (eq_str _ _); [|exact Hs].
  now apply (send_message_wire "pong" (Some pong_data) 3 (rx_reply_time i)
               (put (stamp i o) c) s).
Qed.

(** X6: the receive loop transmits nothing but replies to pings.  What it
    adds to the wire over any run of [recvfrom] results is a sub-sequence
    of the pongs due, one per ping in the order of the pings, so never two
    for one ping; and on a transport whose [sendto] does not raise it is
    all of them. *)
Theorem receive_loop_pongs (rs : list rx) (c : RobustSyncClient)
    (s : udp_socket) :
  socket c = Some s ->
  exists s' new,
    socket (_receive_messages rs c) = Some s'
    /\ wire s' = wire s ++ new
    /\ new `sublist_of` pongs rs
    /\ (running c = true -> script s = [] ->
        new = pongs rs /\ script s' = []).
Proof.
  revert c s. induction rs as [|i rs IH]; intros c s Hs; simpl.
  - exists s, []. rewrite app_nil_r. repeat split; auto.
  - destruct (running c) eqn:Hr.
    + pose proof (receive_step_wire i c s Hs) as Hstep. cbv zeta in Hstep.
      destruct (receive_step_enqueues i c) as (_ & Hrun & _).
      destruct (IH _ _ Hstep) as (s' & new & Hs' & Hw & Hsub & Hall).
      unfold pongs. destruct (is_ping i) eqn:Hp.
      * rewrite filter_cons_True by exact Hp. simpl in *.
        exists s'. eexists. split; [exact Hs'|]. split.
        { rewrite Hw, <- app_assoc. reflexivity. }
        split.
        { destruct (leading_raises (script s) <? 3); simpl.
          - now apply sublist_skip.
          - now apply sublist_cons. }
        intros _ Hscript. rewrite Hscript in *. simpl in *.
        destruct Hall as [-> ->]; [now rewrite Hrun|reflexivity|].
        now split.
      * rewrite filter_cons_False by (rewrite Hp; discriminate).
        exists s', new. repeat split; auto.
        -- apply Hall; [now rewrite Hrun|assumption].
        -- apply Hall; [now rewrite Hrun|assumption].
    + exists s, []. rewrite app_nil_r.
      repeat split; auto using sublist_nil_l; discriminate.
Qed.

Lemma in_time_nonpositive (timeout t0 : Q) (tk : tick) :
  (timeout <= 0)%Q -> (t0 <= tick_now tk)%Q ->
  in_time timeout t0 tk = false.
Proof.
  intros Hto Hmono. unfold in_time, Qltb.
  apply negb_false_iff, Qle_bool_iff. lra.
Qed.

(** X7: with a timeout that is zero or negative (and a clock that does not
    run backwards) [wait_for_message] gives up at once: it returns [None]
    and touches nothing, even when a message of the awaited type is at the
    head of the queue. *)
Theorem wait_for_message_no_time (expected_type : string) (timeout t0 : Q)
    (tk : tick) (sched : list tick) (c : RobustSyncClient) :
  (timeout <= 0)%Q ->
  (t0 <= tick_now tk)%Q ->
  wait_for_message expected_type timeout t0 (tk :: sched) c = Some (None, c).
Proof.
  intros Hto Hmono. simpl. now rewrite in_time_nonpositive.
Qed.

Lemma requeue_rotate (k : nat) (q : list dict) :
  requeue (rotate k q) = rotate (S k) q.
Proof.
  destruct q as [|x q];
    [unfold rotate; now rewrite !drop_nil, !take_nil|].
  unfold rotate. set (l := x :: q). set (n := length l).
  assert (Hn : 0 < n) by (subst n l; simpl; lia).
  assert (Hr : k `mod` n < n) by (apply Nat.mod_upper_bound; lia).
  destruct (drop (k `mod` n) l) as [|y rest] eqn:Hd.
  { apply (f_equal length) in Hd. rewrite length_drop in Hd. simpl in Hd.
    fold n in Hd. lia. }
  rewrite <- app_comm_cons. cbn [requeue].
  assert (Hy : l !! (k `mod` n) = Some y).
  { rewrite <- (Nat.add_0_r (k `mod` n)), <- lookup_drop. now rewrite Hd. }
  assert (Hrest : rest = drop (S (k `mod` n)) l).
  { replace (S (k `mod` n)) with (k `mod` n + 1) by lia.
    now rewrite <- drop_drop, Hd. }
  destruct (decide (S (k `mod` n) = n)) as [Heq|Hne].
  - assert (Hm : S k `mod` n = 0).
    { symmetry. apply (Nat.mod_unique (S k) n (S (k / n)) 0); [lia|].
      pose proof (Nat.div_mod_eq k n). nia. }
    rewrite Hm, Hrest, Heq, drop_0, take_0, app_nil_r.
    rewrite (drop_ge l n) by (subst n; lia). cbn [app].
    rewrite <- (take_S_r l _ y Hy), Heq. apply take_ge. subst n. lia.
  - assert (Hm : S k `mod` n = S (k `mod` n)).
    { symmetry. apply (Nat.mod_unique (S k) n (k / n)); [lia|].
      pose proof (Nat.div_mod_eq k n). lia. }
    rewrite Hm, Hrest, <- app_assoc. f_equal.
    now rewrite (take_S_r l _ y Hy).
Qed.

Lemma iter_requeue_rotate (k : nat) (q : list dict) :
  Nat.iter k requeue q = rotate k q.
Proof.
  induction k as [|k IH]; simpl.
  - unfold rotate. now rewrite Nat.Div0.mod_0_l, drop_0, app_nil_r.
  - now rewrite IH, requeue_rotate.
Qed.

Lemma wait_rotates (expected_type : string) (timeout t0 : Q)
    (early : list tick) (late : tick) (rest : list tick)
    (c : RobustSyncClient) :
  Forall (fun x : dict => eq_str (x !! "type") expected_type = false)
    (message_queue c) ->
  Forall (fun tk => in_time timeout t0 tk = true /\ quiet tk = true) early ->
  in_time timeout t0 late = false ->
  exists c',
    wait_for_message expected_type timeout t0 (early ++ late :: rest) c
    = Some (None, c')
    /\ message_queue c' = Nat.iter (length early) requeue (message_queue c)
    /\ socket c' = socket c.
Proof.
  intros Hq Hearly Hlate. revert c Hq.
  induction Hearly as [|tk early [Htime Hquiet] Hearly IH]; intros c Hq; simpl.
  - rewrite Hlate. now exists c.
  - rewrite Htime. unfold quiet in Hquiet.
    destruct (tick_rx tk); [|discriminate].
    destruct (tick_rx_late tk); [|discriminate]. simpl.
    destruct (message_queue c) as [|h q] eqn:Hc.
    + destruct (IH c) as (c' & Hw & Hq' & Hs); [now rewrite Hc|].
      exists c'. rewrite Hw, Hq', Hc. repeat split; auto.
      clear. induction (length early); simpl; [reflexivity|].
      now rewrite <- IHn.
    + apply Forall_cons in Hq as [Hh Hq]. rewrite Hh.
      destruct (IH (put h (with_queue q c))) as (c' & Hw & Hq' & Hs).
      { simpl. apply Forall_app. split; [exact Hq|now constructor]. }
      exists c'. rewrite Hw, Hq'. repeat split; auto.
      change (message_queue (put h (with_queue q c))) with (requeue (h :: q)).
      now rewrite <- Nat.iter_succ_r.
Qed.

(** X8: waiting for a type of which no message is queued, while nothing
    arrives, turns the queue round and round: each turn of the loop takes
    the head off and puts it at the tail.  When the timeout ends the wait
    after [k] turns the result is [None] and the queue holds the same
    messages rotated by [k]; so the order in which other waiters will see
    them has changed unless [k] is a multiple of the queue's length. *)
Theorem wait_for_message_rotates (expected_type : string) (timeout t0 : Q)
    (early : list tick) (late : tick) (rest : list tick)
    (c : RobustSyncClient) :
  Forall (fun x : dict => eq_str (x !! "type") expected_type = false)
    (message_queue c) ->
  Forall (fun tk => in_time timeout t0 tk = true /\ quiet tk = true) early ->
  in_time timeout t0 late = false ->
  exists c',
    wait_for_message expected_type timeout t0 (early ++ late :: rest) c
    = Some (None, c')
    /\ message_queue c' = rotate (length early) (message_queue c)
    /\ socket c' = socket c.
Proof.
  intros Hq Hearly Hlate.
  destruct (wait_rotates expected_type timeout t0 early late rest c
              Hq Hearly Hlate) as (c' & Hw & Hq' & Hs).
  exists c'. now rewrite <- iter_requeue_rotate.
Qed.

Lemma receive_loop_queue_within (rs : list rx) (c : RobustSyncClient)
    (m : dict) :
  m ∈ message_queue (_receive_messages rs c) ->
  m ∈ message_queue c ++ enqueued rs.
Proof.
  rewrite receive_loop_queue. destruct (running c); [easy|].
  rewrite app_nil_r. intros H. apply elem_of_app. now left.
Qed.

(** X9: [wait_for_message] makes nothing up and hands out nothing of
    another type: a message it returns has the awaited type, and it was
    on the queue when the wait began or was put there by the receive
    thread during the wait. *)
Theorem wait_for_message_returns_known (expected_type : string)
    (timeout t0 : Q) (sched : list tick) (c c' : RobustSyncClient)
    (m : dict) :
  wait_for_message expected_type timeout t0 sched c = Some (Some m, c') ->
  m !! "type" = Some (JStr expected_type)
  /\ m ∈ message_queue c ++ arrivals sched.
Proof.
  revert c. induction sched as [|tk sched IH]; intros c; simpl; [discriminate|].
  destruct (in_time timeout t0 tk); [|discriminate].
  unfold arrivals. simpl. fold (arrivals sched).
  assert (Hsub : forall x,
            x ∈ message_queue (_receive_messages (tick_rx tk) c) ->
            x ∈ message_queue c
                ++ (enqueued (tick_rx tk) ++ enqueued (tick_rx_late tk))
                ++ arrivals sched).
  { intros x Hx. apply receive_loop_queue_within in Hx.
    rewrite !elem_of_app in *. tauto. }
  destruct (message_queue (_receive_messages (tick_rx tk) c))
    as [|h rest] eqn:Hq.
  - intros H. apply IH in H as [Hty Hin]. split; [exact Hty|].
    rewrite Hq in Hin. simpl in Hin. rewrite !elem_of_app. tauto.
  - destruct (eq_str (h !! "type") expected_type) eqn:Hty.
    + intros [= <- <-]. split; [now apply eq_str_true|].
      apply Hsub. now left.
    + intros H. apply IH in H as [Hm Hin]. split; [exact Hm|].
      simpl in Hin.
      apply elem_of_app in Hin as [Hin|Hin];
        [|rewrite !elem_of_app; tauto].
      apply elem_of_app in Hin as [Hin|Hin].
      * apply receive_loop_queue_within in Hin. simpl in Hin.
        apply elem_of_app in Hin as [Hin|Hin];
          [|rewrite !elem_of_app; tauto].
        apply Hsub. now right.
      * apply list_elem_of_singleton in Hin as ->. apply Hsub. now left.
Qed.

(** X10: what one station sends is what the application of the other is
    handed.  When the first [sendto] of a [send_message] does not raise,
    the envelope is on the wire; and a station whose receive thread takes
    that datagram in while its application waits for that type, with
    nothing queued before, gets the envelope back with the same type,
    timestamp and data, and with the sender's address and the time of
    receipt added. *)
Theorem sent_message_reaches_waiter (message_type : string)
    (data : option dict) (retry_count : nat) (now : Q)
    (sender : RobustSyncClient) (s : udp_socket)
    (receiver : RobustSyncClient) (i : rx) (tk : tick) (sched : list tick)
    (timeout t0 : Q) :
  socket sender = Some s ->
  head (script s) <> Some Raise ->
  0 < retry_count ->
  running receiver = true ->
  message_queue receiver = [] ->
  in_time timeout t0 tk = true ->
  tick_rx tk = [i] ->
  rx_recv i = RecvData (Some (JObj (envelope message_type now data))) ->
  let sent := send_message message_type data retry_count now sender in
  (sent.1 = true
   /\ exists s', socket sent.2 = Some s'
        /\ wire s' = wire s ++ [envelope message_type now data])
  /\ exists m c',
       wait_for_message message_type timeout t0 (tk :: sched) receiver
       = Some (Some m, c')
       /\ m !! "type" = Some (JStr message_type)
       /\ m !! "timestamp" = Some (JNum now)
       /\ m !! "data" = Some (JObj (default ∅ data))
       /\ m !! "sender_addr" = Some (rx_addr i)
       /\ m !! "receipt_time" = Some (JNum (rx_time i))
       /\ message_queue c' = [].
Proof.
  intros Hs Hhead Hn Hrun Hq Htime Hrx Hrecv sent. split.
  - destruct (send_message_wire message_type data retry_count now sender s Hs)
      as [Hsock Hres].
    assert (Hk : leading_raises (script s) = 0).
    { destruct (script s) as [|[] ?]; simpl in *; congruence. }
    rewrite Hk in Hsock, Hres.
    assert (Hlt : (0 <? retry_count) = true) by now apply Nat.ltb_lt.
    rewrite Hlt in Hsock, Hres. split; [exact Hres|].
    eexists. split; [exact Hsock|reflexivity].
  - exists (stamp i (envelope message_type now data)).
    exists (with_queue [] (_receive_messages (tick_rx tk) receiver)).
    assert (Hqueue : message_queue (_receive_messages (tick_rx tk) receiver)
                     = [stamp i (envelope message_type now data)]).
    { rewrite receive_loop_queue, Hrun, Hq, Hrx.
      unfold enqueued, enqueues. simpl. now rewrite Hrecv. }
    assert (Hty : eq_str (stamp i (envelope message_type now data) !! "type")
                    message_type = true).
    { apply eq_str_true. now rewrite stamp_type, envelope_type. }
    split.
    { cbn [wait_for_message]. now rewrite Htime, Hqueue, Hty. }
    split; [now apply eq_str_true|].
    unfold stamp, envelope. rewrite <- or_empty_default.
    repeat split; now simplify_map_eq.
Qed.

End SyncRunFacts.

(** ** The coordinator over whole runs *)

Section CoordinatorRunFacts.
Import Coordinator CoordinatorRun.

Lemma client_steady_refl (c : Sync.RobustSyncClient) : client_steady c c.
Proof. now split. Qed.

Lemma client_steady_trans (a b c : Sync.RobustSyncClient) :
  client_steady a b -> client_steady b c -> client_steady a c.
Proof. intros [A1 A2] [B1 B2]. split; [congruence|auto]. Qed.

Lemma client_steady_send message_type data n now (c : Sync.RobustSyncClient) :
  client_steady c (Sync.send_message message_type data n now c).2.
Proof.
  split; [apply send_message_closed|].
  unfold Sync.send_message.
  destruct (Sync.socket c); [|intros [? ?]; discriminate].
  destruct (Sync.send_loop _ _ _ _) as [[? ?] ?]. intros _. simpl.
  eexists; reflexivity.
Qed.

Lemma client_steady_step (i : Sync.rx) (c : Sync.RobustSyncClient) :
  client_steady c (Sync.receive_messages_step i c).
Proof.
  unfold Sync.receive_messages_step.
  destruct (Sync.rx_recv i) as [| |[[]|]]; try apply client_steady_refl.
  destruct (eq_str _ _); [|now split].
  eapply client_steady_trans; [|apply client_steady_send]. now split.
Qed.

Lemma client_steady_receive (rs : list Sync.rx) (c : Sync.RobustSyncClient) :
  client_steady c (Sync._receive_messages rs c).
Proof.
  revert c. induction rs as [|i rs IH]; intros c; simpl;
    [apply client_steady_refl|].
  destruct (Sync.running c); [|apply client_steady_refl].
  eapply client_steady_trans; [apply client_steady_step|apply IH].
Qed.

Lemma client_steady_wait (expected_type : string) (timeout t0 : Q)
    (sched : list Sync.tick) (c c' : Sync.RobustSyncClient)
    (r : option dict) :
  Sync.wait_for_message expected_type timeout t0 sched c = Some (r, c') ->
  client_steady c c'.
Proof.
  revert c. induction sched as [|tk sched IH]; intros c; simpl;
    [discriminate|].
  destruct (Sync.in_time timeout t0 tk);
    [|intros [= <- <-]; apply client_steady_refl].
  pose proof (client_steady_receive (Sync.tick_rx tk) c) as H1.
  destruct (Sync.message_queue _) as [|h rest].
  - intros H. apply IH in H. eapply client_steady_trans; eassumption.
  - destruct (eq_str _ _).
    + intros [= <- <-]. eapply client_steady_trans; [exact H1|now split].
    + intros H. apply IH in H.
      eapply client_steady_trans; [exact H1|].
      eapply client_steady_trans; [|exact H].
      set (c1 := Sync._receive_messages (Sync.tick_rx tk) c).
      apply (client_steady_trans _ (Sync.with_queue rest c1)); [now split|].
      apply (client_steady_trans _
               (Sync._receive_messages (Sync.tick_rx_late tk)
                  (Sync.with_queue rest c1)));
        [apply client_steady_receive|now split].
Qed.

Lemma client_steady_get (rs : list Sync.rx) (c : Sync.RobustSyncClient) :
  client_steady c (Sync.get_message rs c).2.
Proof.
  unfold Sync.get_message.
  pose proof (client_steady_receive rs c) as H.
  destruct (Sync.message_queue _); simpl; [exact H|].
  eapply client_steady_trans; [exact H|now split].
Qed.

Lemma steady_refl (st : coordinator) : steady st st.
Proof. repeat split; auto. Qed.

Lemma steady_trans (a b c : coordinator) :
  steady a b -> steady b c -> steady a c.
Proof.
  intros (A1 & A2 & A3) (B1 & B2 & B3). repeat split.
  - now trans (data_log b).
  - congruence.
  - apply (client_steady_trans _ _ _ A3 B3).
  - apply (client_steady_trans _ _ _ A3 B3).
Qed.

(** A state that differs in neither the log nor what is saved. *)
Lemma steady_client (st st' : coordinator) :
  data_log st' = data_log st -> saved st' = saved st ->
  client_steady (sync_client st) (sync_client st') -> steady st st'.
Proof. intros H1 H2 H3. split; [now rewrite H1|]. now split. Qed.

Lemma steady_send message_type data now (st : coordinator) :
  steady st (send message_type data now st).
Proof. apply steady_client; try reflexivity. apply client_steady_send. Qed.

Lemma steady_escape now (st : coordinator) :
  steady st (flow_state (escape now st)).
Proof.
  unfold escape. simpl.
  eapply steady_trans; [|apply steady_send].
  apply steady_client; try reflexivity. apply client_steady_refl.
Qed.

Lemma steady_check_client (i : turn) (st : coordinator) :
  steady st (flow_state (check_client i st)).
Proof.
  unfold check_client. destruct (received_client st); simpl.
  - destruct (existsb _ _); [apply steady_escape|apply steady_refl].
  - destruct (turn_keys i) as [|[k rt] ks]; [apply steady_refl|].
    destruct (is_escape k); [apply steady_escape|]. simpl.
    eapply steady_trans; [|apply steady_send].
    apply steady_client; try apply client_steady_refl;
      unfold record_first; now destruct (is_None _).
Qed.

Lemma steady_check_server (i : turn) (st : coordinator) :
  steady st (flow_state (check_server i st)).
Proof.
  unfold check_server.
  destruct (Sync.wait_for_message _ _ _ _ _) as [[resp_msg c]|] eqn:Hw;
    [|apply steady_refl].
  apply client_steady_wait in Hw.
  assert (H : steady st (set_sync_client c st)) by now apply steady_client.
  destruct resp_msg as [resp_msg|]; [|exact H].
  destruct (size resp_msg =? 0); [exact H|].
  destruct (eq_str (resp_msg !! "type") "response_update"); [|exact H].
  destruct (data_of resp_msg) as [resp_data|]; [|exact H].
  destruct (eq_str (resp_data !! "responder") "server"); [|exact H].
  change (received_server (set_sync_client c st)) with (received_server st).
  destruct (received_server st); [exact H|]. simpl.
  eapply steady_trans; [exact H|].
  apply steady_client; try apply client_steady_refl;
    unfold record_first; now destruct (is_None _).
Qed.

Lemma steady_response_turn (i : turn) (st : coordinator) :
  steady st (flow_state (response_turn i st)).
Proof.
  unfold response_turn. destruct (target_position st); [|apply steady_refl].
  pose proof (steady_check_client i st) as Hc.
  destruct (check_client i st) as [st1| |]; try exact Hc.
  eapply steady_trans; [exact Hc|apply steady_check_server].
Qed.

Lemma steady_response_loop (turns : list turn) (st : coordinator) :
  steady st (flow_state (response_loop turns st)).
Proof.
  revert st. induction turns as [|i turns IH]; intros st; simpl.
  - destruct (_ && _); apply steady_refl.
  - destruct (_ && _); [apply steady_refl|].
    pose proof (steady_response_turn i st) as Ht.
    destruct (response_turn i st) as [st1| |]; try exact Ht.
    eapply steady_trans; [exact Ht|apply IH].
Qed.

Lemma steady_response_entry ack_time (st : coordinator) :
  steady st (response_entry ack_time st).
Proof.
  unfold response_entry.
  apply steady_client; try reflexivity. simpl. apply client_steady_send.
Qed.

Lemma steady_stage_response ack_time turns (st : coordinator) :
  steady st (flow_state (stage_response ack_time turns st)).
Proof.
  unfold stage_response.
  pose proof (steady_response_loop turns (response_entry ack_time st)) as H.
  pose proof (steady_response_entry ack_time st) as He.
  destruct (response_loop _ _) as [st1| |]; simpl in *;
    (eapply steady_trans; [exact He|]); exact H.
Qed.

Lemma steady_display_loop (frames : list frame) (st : coordinator) :
  steady st (flow_state (display_loop frames st)).
Proof.
  revert st. induction frames as [|f frames IH]; intros st; simpl;
    [apply steady_refl|].
  destruct (Sync.Qltb _ _); [|apply steady_refl].
  set (st1 := set_gaze _ st).
  assert (H1 : steady st st1)
    by (apply steady_client; try reflexivity; apply client_steady_refl).
  destruct (frame_escape f).
  - eapply steady_trans; [exact H1|apply steady_escape].
  - eapply steady_trans; [exact H1|apply IH].
Qed.

Lemma steady_stage_grid_display message grid_ok ack_time frames
    (st : coordinator) :
  steady st (flow_state (stage_grid_display message grid_ok ack_time frames st)).
Proof.
  unfold stage_grid_display.
  destruct (data_of message) as [trial_data|];
    [|apply steady_client; try reflexivity; apply client_steady_refl].
  destruct grid_ok; simpl;
    [|apply steady_client; try reflexivity; apply client_steady_refl].
  match goal with |- context [display_loop frames ?s] =>
    pose proof (steady_display_loop frames s) as H;
    assert (He : steady st s)
      by (apply steady_client; try reflexivity; apply client_steady_send)
  end.
  destruct (display_loop _ _) as [st1| |]; simpl in *;
    (eapply steady_trans; [exact He|]); exact H.
Qed.

Lemma stage_feedback_outcome (message : dict) (ack_time : Q) (clock : list Q)
    (st st' : coordinator) :
  stage_feedback message ack_time clock st = Next st' ->
  exists feedback_data target,
    data_of message = Some feedback_data
    /\ target_position st = Some target
    /\ st' = set_data_log
               (data_log st ++ [feedback_log feedback_data target st])
               (set_sharing false
                  (feedback_entry feedback_data ack_time
                     (set_sharing false st))).
Proof.
  unfold stage_feedback. destruct (data_of message) as [fd|]; [|discriminate].
  pose proof (feedback_loop_state (get_or fd "trial_score" (JNum 0)) clock
                (feedback_entry fd ack_time (set_sharing false st))) as Hl.
  destruct (feedback_loop _ _ _) as [st1|how st1|st1]; try discriminate.
  simpl in Hl. subst st1. simpl.
  destruct (target_position st) as [target|]; [|discriminate].
  intros [= <-]. exists fd, target. repeat split.
Qed.

(** X11: the entry that a completed feedback stage appends to the trial
    log takes the first responder, the first response, the correct
    category and the scores from the feedback message (with their
    defaults when a field is missing), whatever the local race had
    recorded; the trial number, the target position and the client's own
    answer and reaction time are the local ones.  The stage appends
    exactly this one entry. *)
Theorem feedback_logs_the_message (message : dict) (ack_time : Q)
    (clock : list Q) (st st' : coordinator) :
  stage_feedback message ack_time clock st = Next st' ->
  exists feedback_data target,
    data_of message = Some feedback_data
    /\ target_position st = Some target
    /\ data_log st'
       = data_log st
         ++ [ {| log_trial := current_trial st;
                 log_target_position := target;
                 log_correct_category :=
                   get_or feedback_data "correct_category" (JStr "");
                 log_client_response := client_response st;
                 log_client_rt := client_rt st;
                 log_first_responder :=
                   get_or feedback_data "first_responder" (JStr "");
                 log_first_response :=
                   get_or feedback_data "first_response" (JStr "");
                 log_trial_score :=
                   get_or feedback_data "trial_score" (JNum 0);
                 log_total_score :=
                   get_or feedback_data "total_score" (JNum 0) |} ]
    /\ first_responder st'
       = get_or feedback_data "first_responder" (JStr "")
    /\ first_response st'
       = get_or feedback_data "first_response" (JStr "").
Proof.
  intros H. apply stage_feedback_outcome in H
    as (fd & target & Hd & Ht & ->).
  exists fd, target. repeat split; assumption.
Qed.

Lemma steady_stage_feedback message ack_time clock (st : coordinator) :
  steady st (flow_state (stage_feedback message ack_time clock st)).
Proof.
  destruct (stage_feedback message ack_time clock st) as [st'|how st'|st']
    eqn:H.
  - apply stage_feedback_outcome in H as (fd & target & _ & _ & ->).
    simpl. split; [now apply prefix_app_r|].
    split; [reflexivity|]. apply client_steady_send.
  - revert H. unfold stage_feedback.
    destruct (data_of message) as [fd|];
      [|intros [= _ <-]; apply steady_client; try reflexivity;
        apply client_steady_refl].
    pose proof (feedback_loop_state (get_or fd "trial_score" (JNum 0)) clock
                  (feedback_entry fd ack_time (set_sharing false st))) as Hl.
    destruct (feedback_loop _ _ _) as [st1|how1 st1|st1]; simpl in Hl;
      subst st1.
    + simpl. destruct (target_position st); [discriminate|].
      intros [= _ <-]. apply steady_client; try reflexivity.
      apply client_steady_send.
    + intros [= _ <-]. apply steady_client; try reflexivity.
      apply client_steady_send.
    + discriminate.
  - revert H. unfold stage_feedback.
    destruct (data_of message) as [fd|]; [|discriminate].
    pose proof (feedback_loop_state (get_or fd "trial_score" (JNum 0)) clock
                  (feedback_entry fd ack_time (set_sharing false st))) as Hl.
    destruct (feedback_loop _ _ _) as [st1|how1 st1|st1]; simpl in Hl;
      subst st1.
    + simpl. destruct (target_position st); discriminate.
    + discriminate.
    + intros [= <-]. apply steady_client; try reflexivity.
      apply client_steady_send.
Qed.

Lemma steady_dispatch (i : step) (message : dict) (st : coordinator)
    (f : flow coordinator) :
  dispatch i message st = Some f -> steady st (flow_state f).
Proof.
  unfold dispatch.
  destruct (eq_str _ "stage_grid_display");
    [intros [= <-]; apply steady_stage_grid_display|].
  destruct (eq_str _ "stage_response");
    [intros [= <-]; apply steady_stage_response|].
  destruct (eq_str _ "stage_feedback");
    [intros [= <-]; apply steady_stage_feedback|].
  destruct (eq_str _ "end_experiment"); [discriminate|].
  intros [= <-]. apply steady_refl.
Qed.

Lemma steady_main_loop (steps : list step) (st : coordinator) :
  steady st (flow_state (main_loop steps st)).
Proof.
  revert st. induction steps as [|i steps IH]; intros st; simpl;
    [apply steady_refl|].
  pose proof (client_steady_get (step_rx i) (sync_client st)) as Hg.
  destruct (Sync.get_message (step_rx i) (sync_client st)) as [message c].
  simpl in Hg.
  assert (H1 : steady st (set_sync_client c st)) by now apply steady_client.
  destruct message as [message|];
    [|eapply steady_trans; [exact H1|apply IH]].
  destruct (size message =? 0);
    [eapply steady_trans; [exact H1|apply IH]|].
  destruct (dispatch i message (set_sync_client c st)) as [f|] eqn:Hd;
    [|exact H1].
  apply steady_dispatch in Hd.
  destruct f as [st1| |]; simpl in *;
    (eapply steady_trans; [exact H1|]); try exact Hd.
  eapply steady_trans; [exact Hd|apply IH].
Qed.

(** X12: the trial log is append-only.  Whatever messages arrive and
    however the main loop ends, the entries logged before are still there,
    unchanged and in the same order, at the head of the log; and the loop
    itself saves nothing and does not close the client. *)
Theorem trial_log_append_only (steps : list step) (st : coordinator) :
  let st' := flow_state (main_loop steps st) in
  data_log st `prefix_of` data_log st'
  /\ saved st' = saved st
  /\ Sync.closed (sync_client st') = Sync.closed (sync_client st).
Proof.
  destruct (steady_main_loop steps st) as (H1 & H2 & H3 & _).
  repeat split; assumption.
Qed.

(** X13: only a normal end saves and closes.  When
    [run_synchronized_experiment] runs to its end, what is saved is the
    whole trial log and the client is closed and no longer running.  When
    it returns early (no gaze network, no start message) or is left
    through [terminate_task] after escape, the trial log gathered so far
    is not saved anywhere and the client is not closed. *)
Theorem only_normal_end_saves (w : world) (g : Gaze.globals) :
  match run_synchronized_experiment w g with
  | Next st =>
      saved st = Some (data_log st)
      /\ Sync.closed (sync_client st) = true
      /\ Sync.running (sync_client st) = false
  | Leave Return st | Leave Terminate st =>
      saved st = None /\ Sync.closed (sync_client st) = false
  | _ => True
  end.
Proof.
  unfold run_synchronized_experiment.
  destruct (gaze_network_ok w); simpl; [|now split].
  destruct (Sync.wait_for_message _ _ _ _ _) as [[start_msg c]|] eqn:Hw;
    [|exact I].
  apply client_steady_wait in Hw as [Hclosed _]. simpl in Hclosed.
  destruct start_msg as [start_msg|]; [|now split].
  destruct (size start_msg =? 0); [now split|].
  match goal with |- context [main_loop (steps w) ?s] =>
    pose proof (steady_main_loop (steps w) s) as (_ & Hs & Hc & _);
    assert (Hc0 : Sync.closed (sync_client s) = false)
      by (simpl; now rewrite send_message_closed)
  end.
  destruct (main_loop _ _) as [st1|[] st1|st1]; simpl in *;
    try exact I; try (split; [exact Hs|congruence]).
  unfold finish. simpl.
  destruct (is_number (total_score st1)); [|exact I].
  simpl. now repeat split.
Qed.

Lemma send_loop_attempted (ty : string) n pkt s l :
  eq_str (pkt !! "type") ty = true ->
  filter (fun e => Sync.is_attempt ty e = true) l <> [] \/ 0 < n ->
  filter (fun e => Sync.is_attempt ty e = true) (Sync.send_loop n pkt s l).2
  <> [].
Proof.
  intros Hty. revert s l. induction n as [|n IH]; intros s l H; simpl.
  - destruct H as [H|H]; [exact H|lia].
  - destruct (sendto pkt s) as [[] s']; simpl.
    + rewrite filter_app, filter_cons_True by (simpl; exact Hty).
      intros Hnil. apply app_eq_nil in Hnil as [_ Hnil]. discriminate.
    + apply IH. left.
      rewrite filter_app, filter_cons_True by (simpl; exact Hty).
      intros Hnil. apply app_eq_nil in Hnil as [_ Hnil]. discriminate.
Qed.

Lemma escape_notifies now (st : coordinator) :
  is_Some (Sync.socket (sync_client st)) -> notified (escape now st).
Proof.
  intros [s Hs]. unfold escape, notified, send, Sync.attempts. simpl.
  unfold Sync.send_message. rewrite Hs.
  pose proof (send_loop_attempted "end_experiment" 3
                (Sync.envelope "end_experiment" now None) s
                (Sync.log (sync_client st))) as H.
  destruct (Sync.send_loop _ _ _ _) as [[r s'] l']. simpl in *.
  apply H; [|right; lia].
  unfold eq_str. now rewrite envelope_type.
Qed.

Lemma notified_response_loop (turns : list turn) (st : coordinator) :
  is_Some (Sync.socket (sync_client st)) ->
  notified (response_loop turns st).
Proof.
  revert st. induction turns as [|i turns IH]; intros st Hs; simpl.
  - now destruct (_ && _).
  - destruct (_ && _); [exact I|].
    pose proof (steady_response_turn i st) as (_ & _ & _ & Hsock).
    unfold response_turn in *.
    destruct (target_position st); [|exact I].
    assert (Hc : notified (check_client i st)).
    { unfold check_client. destruct (received_client st); simpl.
      - destruct (existsb _ _); [now apply escape_notifies|exact I].
      - destruct (turn_keys i) as [|[k rt] ks]; [exact I|].
        destruct (is_escape k); [now apply escape_notifies|exact I]. }
    destruct (check_client i st) as [st1|how st1|st1]; try exact Hc.
    assert (Hv : forall f, check_server i st1 = f ->
                   match f with Leave Terminate _ => False | _ => True end).
    { intros f <-. unfold check_server.
      destruct (Sync.wait_for_message _ _ _ _ _) as [[[m|] c]|]; try exact I.
      destruct (size m =? 0); [exact I|].
      destruct (eq_str (m !! "type") "response_update"); [|exact I].
      destruct (data_of m); [|exact I].
      destruct (eq_str _ "server"); [|exact I].
      now destruct (negb _). }
    specialize (Hv _ eq_refl).
    destruct (check_server i st1) as [st2|[] st2|st2]; try exact I;
      [|contradiction].
    apply IH. apply Hsock. exact Hs.
Qed.

Lemma notified_display_loop (frames : list frame) (st : coordinator) :
  is_Some (Sync.socket (sync_client st)) ->
  notified (display_loop frames st).
Proof.
  revert st. induction frames as [|f frames IH]; intros st Hs; simpl;
    [exact I|].
  destruct (Sync.Qltb _ _); [|exact I].
  destruct (frame_escape f); [now apply escape_notifies|now apply IH].
Qed.

Lemma feedback_loop_no_terminate trial_score clock (st st' : coordinator) :
  feedback_loop trial_score clock st <> Leave Terminate st'.
Proof.
  induction clock as [|t clock IH]; simpl; [discriminate|].
  destruct (Sync.Qltb t 1); [|discriminate].
  destruct (is_number trial_score); [exact IH|discriminate].
Qed.

Lemma notified_dispatch (i : step) (message : dict) (st : coordinator)
    (f : flow coordinator) :
  is_Some (Sync.socket (sync_client st)) ->
  dispatch i message st = Some f -> notified f.
Proof.
  intros Hs. unfold dispatch.
  destruct (eq_str _ "stage_grid_display").
  { intros [= <-]. unfold stage_grid_display.
    destruct (data_of message); [|exact I].
    destruct (step_grid_ok i); [|exact I]. simpl.
    match goal with |- context [display_loop _ ?s] =>
      pose proof (notified_display_loop (step_frames i) s) as H
    end.
    destruct (display_loop _ _) as [st1|how st1|st1]; try exact I.
    apply H. simpl. apply client_steady_send. exact Hs. }
  destruct (eq_str _ "stage_response").
  { intros [= <-]. unfold stage_response.
    pose proof (notified_response_loop (step_turns i)
                  (response_entry (step_ack_time i) st)) as H.
    destruct (response_loop _ _) as [st1|how st1|st1]; try exact I.
    apply H. simpl. apply client_steady_send. exact Hs. }
  destruct (eq_str _ "stage_feedback").
  { intros [= <-]. unfold stage_feedback.
    destruct (data_of message) as [fd|]; [|exact I].
    destruct (feedback_loop _ _ _) as [st1|[] st1|st1] eqn:E; try exact I.
    - simpl. now destruct (target_position st1).
    - now apply feedback_loop_no_terminate in E. }
  destruct (eq_str _ "end_experiment"); [discriminate|].
  now intros [= <-].
Qed.

Lemma notified_main_loop (steps : list step) (st : coordinator) :
  is_Some (Sync.socket (sync_client st)) -> notified (main_loop steps st).
Proof.
  revert st. induction steps as [|i steps IH]; intros st Hs; simpl;
    [exact I|].
  pose proof (client_steady_get (step_rx i) (sync_client st)) as [_ Hg].
  destruct (Sync.get_message (step_rx i) (sync_client st)) as [message c].
  simpl in Hg. specialize (Hg Hs).
  destruct message as [message|]; [|now apply IH].
  destruct (size message =? 0); [now apply IH|].
  destruct (dispatch i message (set_sync_client c st)) as [f|] eqn:Hd;
    [|exact I].
  pose proof (notified_dispatch i message (set_sync_client c st) f Hg Hd)
    as Hn.
  apply steady_dispatch in Hd as (_ & _ & _ & Hsock).
  destruct f as [st1| |]; try exact Hn.
  apply IH. apply Hsock. exact Hg.
Qed.

(** X14: the operator's escape never leaves the peer without notice.
    Whenever [run_synchronized_experiment] is left through
    [terminate_task], an [end_experiment] was handed to [sendto] before,
    at least once. *)
Theorem escape_always_notifies (w : world) (g : Gaze.globals) :
  match run_synchronized_experiment w g with
  | Leave Terminate st =>
      Sync.attempts "end_experiment" (sync_client st) <> []
  | _ => True
  end.
Proof.
  unfold run_synchronized_experiment.
  destruct (gaze_network_ok w); simpl; [|exact I].
  destruct (Sync.wait_for_message _ _ _ _ _) as [[start_msg c]|] eqn:Hw;
    [|exact I].
  apply client_steady_wait in Hw as [_ Hsock]. simpl in Hsock.
  destruct start_msg as [start_msg|]; [|exact I].
  destruct (size start_msg =? 0); [exact I|].
  match goal with |- context [main_loop (steps w) ?s] =>
    pose proof (notified_main_loop (steps w) s) as Hn
  end.
  destruct (main_loop _ _) as [st1|[] st1|st1]; try exact I.
  - unfold finish. now destruct (is_number _).
  - apply Hn. simpl. apply client_steady_send. apply Hsock.
    eexists; reflexivity.
Qed.

Lemma same_or_off_refl (g : Gaze.globals) : same_or_off g g.
Proof. now left. Qed.

Lemma same_or_off_trans (a b c : Gaze.globals) :
  same_or_off a b -> same_or_off b c -> same_or_off a c.
Proof.
  intros [->| ->] [->| ->]; try (now left); now right.
Qed.

Lemma same_or_off_escape now (st : coordinator) :
  same_or_off (gaze st) (gaze (flow_state (escape now st))).
Proof. now right. Qed.

Lemma same_or_off_response_loop (turns : list turn) (st : coordinator) :
  same_or_off (gaze st) (gaze (flow_state (response_loop turns st))).
Proof.
  revert st. induction turns as [|i turns IH]; intros st; simpl.
  - destruct (_ && _); apply same_or_off_refl.
  - destruct (_ && _); [apply same_or_off_refl|].
    unfold response_turn. destruct (target_position st);
      [|apply same_or_off_refl].
    assert (Hc : same_or_off (gaze st) (gaze (flow_state (check_client i st)))).
    { unfold check_client. destruct (received_client st); simpl.
      - destruct (existsb _ _);
          [apply same_or_off_escape|apply same_or_off_refl].
      - destruct (turn_keys i) as [|[k rt] ks]; [apply same_or_off_refl|].
        destruct (is_escape k); [apply same_or_off_escape|]. simpl.
        unfold record_first. destruct (is_None _); now left. }
    destruct (check_client i st) as [st1| |]; try exact Hc.
    assert (Hv : gaze (flow_state (check_server i st1)) = gaze st1).
    { unfold check_server.
      destruct (Sync.wait_for_message _ _ _ _ _) as [[[m|] c]|];
        try reflexivity.
      destruct (size m =? 0); [reflexivity|].
      destruct (eq_str (m !! "type") "response_update"); [|reflexivity].
      destruct (data_of m); [|reflexivity].
      destruct (eq_str _ "server"); [|reflexivity].
      change (received_server (set_sync_client c st1))
        with (received_server st1).
      destruct (received_server st1); [reflexivity|]. simpl.
      unfold record_first. now destruct (is_None _). }
    destruct (check_server i st1) as [st2| |]; simpl in *;
      try (rewrite Hv; exact Hc).
    eapply same_or_off_trans; [|apply IH]. now rewrite Hv.
Qed.

Lemma same_or_off_stage_response ack_time turns (st : coordinator) :
  same_or_off (gaze st) (gaze (flow_state (stage_response ack_time turns st))).
Proof.
  unfold stage_response.
  pose proof (same_or_off_response_loop turns (response_entry ack_time st))
    as H.
  assert (He : same_or_off (gaze st) (gaze (response_entry ack_time st)))
    by now right.
  destruct (response_loop _ _) as [st1| |]; simpl in *;
    try (eapply same_or_off_trans; [exact He|exact H]).
  eapply same_or_off_trans; [exact He|].
  eapply same_or_off_trans; [exact H|]. now right.
Qed.

Lemma same_or_off_stage_feedback message ack_time clock (st : coordinator) :
  gaze (flow_state (stage_feedback message ack_time clock st))
  = Gaze.set_sharing false (gaze st).
Proof.
  unfold stage_feedback. destruct (data_of message) as [fd|]; [|reflexivity].
  pose proof (feedback_loop_state (get_or fd "trial_score" (JNum 0)) clock
                (feedback_entry fd ack_time (set_sharing false st))) as Hl.
  destruct (feedback_loop _ _ _) as [st1|how st1|st1]; simpl in Hl; subst st1;
    try reflexivity.
  simpl. now destruct (target_position st).
Qed.

Lemma sharing_off_stage_response ack_time turns (st : coordinator) :
  sharing (flow_state (stage_response ack_time turns st)) = false.
Proof.
  unfold stage_response, sharing.
  pose proof (same_or_off_response_loop turns (response_entry ack_time st))
    as H.
  destruct (response_loop _ _) as [st1| |]; simpl in *;
    try reflexivity; destruct H as [->| ->]; reflexivity.
Qed.

(** X15: nothing goes out on the gaze channel during response collection
    or feedback.  However those stages end, the gaze send socket (its
    wire and what is left of its script) and the sent counter are as they
    were when the stage began, and the sharing flag is off. *)
Theorem no_gaze_sent_outside_display (message : dict) (ack_time : Q)
    (turns : list turn) (clock : list Q) (st : coordinator) :
  let after_response := flow_state (stage_response ack_time turns st) in
  let after_feedback :=
    flow_state (stage_feedback message ack_time clock st) in
  (Gaze.send_socket (gaze after_response) = Gaze.send_socket (gaze st)
   /\ Gaze.sent (Gaze.network_stats (gaze after_response))
      = Gaze.sent (Gaze.network_stats (gaze st))
   /\ sharing after_response = false)
  /\ (Gaze.send_socket (gaze after_feedback) = Gaze.send_socket (gaze st)
      /\ Gaze.sent (Gaze.network_stats (gaze after_feedback))
         = Gaze.sent (Gaze.network_stats (gaze st))
      /\ sharing after_feedback = false).
Proof.
  intros after_response after_feedback. split.
  - subst after_response.
    pose proof (same_or_off_stage_response ack_time turns st) as H.
    split; [|split]; [| |apply sharing_off_stage_response];
      destruct H as [->| ->]; reflexivity.
  - subst after_feedback. unfold sharing.
    now rewrite same_or_off_stage_feedback.
Qed.

Lemma display_loop_leaves (frames : list frame) (st : coordinator) :
  match display_loop frames st with
  | Leave how st' => how = Terminate /\ sharing st' = false
  | _ => True
  end.
Proof.
  revert st. induction frames as [|f frames IH]; intros st; simpl; [exact I|].
  destruct (Sync.Qltb _ _); [|exact I].
  destruct (frame_escape f); [now split|apply IH].
Qed.

Lemma ends_off_dispatch (i : step) (message : dict) (st : coordinator)
    (f : flow coordinator) :
  sharing st = false ->
  dispatch i message st = Some f -> ends_off f.
Proof.
  intros Hoff. unfold dispatch.
  destruct (eq_str _ "stage_grid_display").
  { intros [= <-]. unfold stage_grid_display.
    destruct (data_of message); [|exact I].
    destruct (step_grid_ok i); [|exact I]. simpl.
    match goal with |- context [display_loop _ ?s] =>
      pose proof (display_loop_leaves (step_frames i) s) as H
    end.
    destruct (display_loop _ _) as [st1|how st1|st1]; try exact I.
    - reflexivity.
    - destruct H as [-> H]. exact H. }
  destruct (eq_str _ "stage_response").
  { intros [= <-].
    pose proof (sharing_off_stage_response (step_ack_time i) (step_turns i)
                  st) as H.
    destruct (stage_response _ _ _) as [st1|[] st1|st1]; try exact I;
      exact H. }
  destruct (eq_str _ "stage_feedback").
  { intros [= <-].
    pose proof (same_or_off_stage_feedback message (step_ack_time i)
                  (step_clock i) st) as H.
    destruct (stage_feedback _ _ _ _) as [st1|[] st1|st1]; try exact I;
      simpl in H; unfold ends_off, sharing; now rewrite H. }
  destruct (eq_str _ "end_experiment"); [discriminate|].
  now intros [= <-].
Qed.

Lemma ends_off_main_loop (steps : list step) (st : coordinator) :
  sharing st = false -> ends_off (main_loop steps st).
Proof.
  revert st. induction steps as [|i steps IH]; intros st Hoff; simpl;
    [exact I|].
  destruct (Sync.get_message (step_rx i) (sync_client st)) as [message c].
  destruct message as [message|]; [|now apply IH].
  destruct (size message =? 0); [now apply IH|].
  destruct (dispatch i message (set_sync_client c st)) as [f|] eqn:Hd;
    [|exact Hoff].
  pose proof (ends_off_dispatch i message (set_sync_client c st) f Hoff Hd)
    as Hf.
  destruct f as [st1| |]; try exact Hf. now apply IH.
Qed.

(** X16: when the sharing flag is off at the start, as the module sets
    it, it is off again wherever [run_synchronized_experiment] ends other
    than by an exception: at the normal end, at an early return, and after
    an escape.  (A [stage_grid_display] message whose data is no
    dictionary makes the grid stage raise with the flag still on.) *)
Theorem sharing_off_at_the_end (w : world) (g : Gaze.globals) :
  Gaze.GAZE_SHARING_ACTIVE g = false ->
  match run_synchronized_experiment w g with
  | Next st | Leave Return st | Leave Terminate st => sharing st = false
  | _ => True
  end
  /\ (forall message grid_ok ack_time frames st,
        data_of message = None ->
        stage_grid_display message grid_ok ack_time frames st
        = Leave Exception (set_sharing true st)).
Proof.
  intros Hoff. split.
  - unfold run_synchronized_experiment.
    destruct (gaze_network_ok w); simpl; [|exact Hoff].
    destruct (Sync.wait_for_message _ _ _ _ _) as [[start_msg c]|];
      [|exact I].
    destruct start_msg as [start_msg|]; [|exact Hoff].
    destruct (size start_msg =? 0); [exact Hoff|].
    match goal with |- context [main_loop (steps w) ?s] =>
      pose proof (ends_off_main_loop (steps w) s Hoff) as H
    end.
    destruct (main_loop _ _) as [st1|[] st1|st1]; try exact H; try exact I.
    unfold finish. simpl in H.
    destruct (is_number _); [exact H|exact I].
  - intros message grid_ok ack_time frames st Hd.
    unfold stage_grid_display. now rewrite Hd.
Qed.

Lemma answers_ok_entry ack_time (st : coordinator) :
  answers_ok (response_entry ack_time st).
Proof.
  unfold answers_ok. simpl.
  split; [discriminate|]. split; [intros [?|?]; discriminate|].
  split; discriminate.
Qed.

Lemma answers_ok_check_client (i : turn) (st st1 : coordinator) :
  answers_ok st -> check_client i st = Next st1 -> answers_ok st1.
Proof.
  intros (A & B & C & D). unfold check_client.
  destruct (received_client st) eqn:Hrc; simpl.
  - destruct (existsb _ _); [discriminate|]. intros [= <-].
    unfold answers_ok. now rewrite Hrc.
  - destruct (turn_keys i) as [|[k rt] ks].
    + intros [= <-]. unfold answers_ok. now rewrite Hrc.
    + destruct (is_escape k) eqn:Hk; [discriminate|]. intros [= <-].
      unfold answers_ok, record_first. simpl.
      destruct (is_None (first_responder st)) eqn:Hn; simpl.
      * split; [intros _; exists k; now split|].
        split; [intros _; split; [now left|reflexivity]|].
        split; [intros _; now split|]. intros _. now left.
      * split; [intros _; exists k; now split|].
        split; [intros _; apply B, D; reflexivity|].
        split; [intros Hc; apply C in Hc as [Hc _]; congruence|].
        intros _. now left.
Qed.

Lemma answers_ok_check_server (i : turn) (st st1 : coordinator) :
  answers_ok st -> check_server i st = Next st1 -> answers_ok st1.
Proof.
  intros Hok. unfold check_server.
  destruct (Sync.wait_for_message _ _ _ _ _) as [[resp_msg c]|];
    [|discriminate].
  assert (H0 : answers_ok (set_sync_client c st)) by exact Hok.
  destruct resp_msg as [resp_msg|]; [|now intros [= <-]].
  destruct (size resp_msg =? 0); [now intros [= <-]|].
  destruct (eq_str (resp_msg !! "type") "response_update");
    [|now intros [= <-]].
  destruct (data_of resp_msg) as [resp_data|]; [|discriminate].
  destruct (eq_str (resp_data !! "responder") "server");
    [|now intros [= <-]].
  change (received_server (set_sync_client c st)) with (received_server st).
  destruct (received_server st) eqn:Hrs; [now intros [= <-]|]. simpl.
  intros [= <-]. destruct Hok as (A & B & C & D).
  unfold answers_ok, record_first. simpl.
  destruct (is_None (first_responder st)) eqn:Hn; simpl.
  - split; [exact A|].
    split; [intros _; split; [now right|reflexivity]|].
    split; [discriminate|]. intros _. now right.
  - split; [exact A|].
    split; [intros _; apply B, D; reflexivity|].
    split; [exact C|]. intros _. now right.
Qed.

Lemma answers_ok_response_loop (turns : list turn) (st st' : coordinator) :
  answers_ok st -> response_loop turns st = Next st' ->
  answers_ok st' /\ received_server st' = true /\ received_client st' = true.
Proof.
  revert st. induction turns as [|i turns IH]; intros st Hok; simpl.
  - destruct (received_server st && received_client st) eqn:Hb;
      [|discriminate].
    intros [= <-]. apply andb_true_iff in Hb. tauto.
  - destruct (received_server st && received_client st) eqn:Hb.
    + intros [= <-]. apply andb_true_iff in Hb. tauto.
    + unfold response_turn. destruct (target_position st); [|discriminate].
      destruct (check_client i st) as [st1| |] eqn:Hc; try discriminate.
      destruct (check_server i st1) as [st2| |] eqn:Hv; try discriminate.
      apply IH.
      eapply answers_ok_check_server; [|exact Hv].
      eapply answers_ok_check_client; [exact Hok|exact Hc].
Qed.

(** X17: a response stage that runs to its end has both answers and a
    settled race.  Then the server's answer has arrived and the client has
    pressed one of F, L, H, C, which is recorded in upper case; the first
    responder is 'client' or 'server' and the target square is green; and
    if the first responder is the client, the first response is the
    client's own answer.  The sharing flag is off. *)
Theorem response_stage_completes_settled (ack_time : Q) (turns : list turn)
    (st st' : coordinator) :
  stage_response ack_time turns st = Next st' ->
  received_server st' = true
  /\ received_client st' = true
  /\ (exists k, is_escape k = false /\ client_response st' = JStr (upper k))
  /\ (first_responder st' = JStr "client"
      \/ first_responder st' = JStr "server")
  /\ target_square_color st' = "green"
  /\ (first_responder st' = JStr "client" ->
      first_response st' = client_response st')
  /\ sharing st' = false.
Proof.
  unfold stage_response.
  destruct (response_loop turns (response_entry ack_time st)) as [st1| |]
    eqn:Hl; try discriminate.
  intros [= <-].
  apply answers_ok_response_loop in Hl as ((A & B & C & D) & Hs & Hc);
    [|apply answers_ok_entry].
  simpl. repeat split; auto.
  - apply B. now left.
  - apply B. now left.
  - intros H. now apply C.
Qed.

Lemma answer_stands_trans (a b c : coordinator) :
  answer_stands a b -> answer_stands b c -> answer_stands a c.
Proof.
  intros (A1 & A2 & A3 & A4) (B1 & B2 & B3 & B4).
  repeat split; congruence.
Qed.

Lemma answer_stands_check_client (i : turn) (st : coordinator) :
  received_client st = true ->
  answer_stands st (flow_state (check_client i st)).
Proof.
  intros Hrc. unfold check_client. rewrite Hrc. simpl.
  destruct (existsb _ _); [|now repeat split].
  unfold escape, answer_stands. simpl. repeat split; auto.
  now apply send_message_other_type.
Qed.

Lemma answer_stands_check_server (i : turn) (st : coordinator) :
  received_client st = true ->
  answer_stands st (flow_state (check_server i st)).
Proof.
  intros Hrc. unfold check_server.
  destruct (Sync.wait_for_message _ _ _ _ _) as [[resp_msg c]|] eqn:Hw;
    [|now repeat split].
  apply (wait_for_message_attempts "response_update") in Hw as [Hw _];
    [|reflexivity].
  assert (H0 : answer_stands st (set_sync_client c st)) by now repeat split.
  destruct resp_msg as [resp_msg|]; [|exact H0].
  destruct (size resp_msg =? 0); [exact H0|].
  destruct (eq_str (resp_msg !! "type") "response_update"); [|exact H0].
  destruct (data_of resp_msg) as [resp_data|]; [|exact H0].
  destruct (eq_str (resp_data !! "responder") "server"); [|exact H0].
  change (received_server (set_sync_client c st)) with (received_server st).
  destruct (received_server st); [exact H0|]. simpl.
  unfold record_first. destruct (is_None _); exact H0.
Qed.

Lemma answer_stands_response_loop (turns : list turn) (st : coordinator) :
  received_client st = true ->
  answer_stands st (flow_state (response_loop turns st)).
Proof.
  revert st. induction turns as [|i turns IH]; intros st Hrc; simpl.
  - destruct (_ && _); now repeat split.
  - destruct (_ && _); [now repeat split|].
    unfold response_turn. destruct (target_position st);
      [|now repeat split].
    pose proof (answer_stands_check_client i st Hrc) as Hc.
    destruct (check_client i st) as [st1| |]; try exact Hc.
    simpl in Hc.
    pose proof (answer_stands_check_server i st1 (proj1 Hc)) as Hv.
    destruct (check_server i st1) as [st2| |]; simpl in *;
      try (eapply answer_stands_trans; [exact Hc|exact Hv]).
    eapply answer_stands_trans; [exact Hc|].
    eapply answer_stands_trans; [exact Hv|].
    apply IH. apply Hv.
Qed.

(** X18: the client answers once.  After its answer is recorded, whatever
    keys are pressed and whatever arrives in the rest of the response
    loop, the recorded answer and reaction time stay as they are and no
    further [response_update] is handed to [sendto]; later presses of
    F, L, H or C are dropped. *)
Theorem client_answers_once (turns : list turn) (st : coordinator) :
  received_client st = true ->
  let st' := flow_state (response_loop turns st) in
  received_client st' = true
  /\ client_response st' = client_response st
  /\ client_rt st' = client_rt st
  /\ Sync.attempts "response_update" (sync_client st')
     = Sync.attempts "response_update" (sync_client st).
Proof.
  intros Hrc. apply (answer_stands_response_loop turns st Hrc).
Qed.

End CoordinatorRunFacts.

(** ** The gaze markers *)

Section DisplayFacts.
Import Gaze Display.

Lemma send_gaze_data_socket x y valid now (g : globals) :
  GAZE_SHARING_ACTIVE g = true ->
  script (send_socket (send_gaze_data x y valid now g))
  = drop 1 (script (send_socket g))
  /\ sent (network_stats g)
     <= sent (network_stats (send_gaze_data x y valid now g))
     <= S (sent (network_stats g)).
Proof.
  intros H. unfold send_gaze_data, sendto. rewrite H. simpl.
  destruct (script (send_socket g)) as [|[] rest]; simpl; repeat split; lia.
Qed.

(** What one event does to the local counters and to the sending side. *)
Lemma act_account (MISSING_DATA : Q) (e : event) (s : state) :
  let s' := act MISSING_DATA e s in
  let a := local_gaze_stats s in
  let a' := local_gaze_stats s' in
  samples_received a' + valid_gaze_data a + missing_data a
  = samples_received a + valid_gaze_data a' + missing_data a'
  /\ samples_received a' + total_attempts a
     <= total_attempts a' + samples_received a
  /\ total_attempts a' <= total_attempts a + (if is_poll e then 1 else 0)
  /\ exists k,
       samples_received a' = samples_received a + k
       /\ script (send_socket (net s'))
          = drop k (script (send_socket (net s)))
       /\ sent (network_stats (net s))
          <= sent (network_stats (net s'))
          <= sent (network_stats (net s)) + k.
Proof.
  destruct e as [b|t now|r]; cbv zeta.
  - simpl. repeat split; try lia. exists 0. simpl. repeat split; lia.
  - cbn [act is_poll]. unfold update_local_gaze_display.
    destruct (GAZE_SHARING_ACTIVE (net s)) eqn:Hact; simpl;
      [|repeat split; try lia; exists 0; simpl; repeat split; lia].
    destruct t as [|gaze_data]; simpl;
      [repeat split; try lia; exists 0; simpl; repeat split; lia|].
    destruct (usable MISSING_DATA gaze_data) as [[x y]|]; simpl;
      (repeat split; try lia; exists 1;
       match goal with |- context [send_gaze_data ?x ?y ?v ?n ?g] =>
         destruct (send_gaze_data_socket x y v n g Hact) as (Hs & Hl & Hu)
       end; repeat split; [lia|exact Hs|exact Hl|lia]).
  - simpl. destruct (receive_step_sending r (net s)) as (S1 & S2 & _).
    repeat split; try lia. exists 0. rewrite S1, S2. simpl.
    repeat split; lia.
Qed.

(** X19: the local counters add up, over any number of frames, however
    the sharing flag is switched between them and whatever the receive
    thread takes in meanwhile.  Every sample the tracker delivers while
    sharing is on is counted once as valid or as missing and leads to
    exactly one [sendto], which uses up one outcome of the send socket;
    at most that many datagrams are counted as sent.  Polls without a
    sample only count as attempts; while sharing is off nothing is
    counted at all.  (The error counter is shared with the receive
    thread, and is not spoken of.) *)
Theorem local_counters_add_up (MISSING_DATA : Q) (es : list event)
    (s : state) :
  let s' := run MISSING_DATA es s in
  let a := local_gaze_stats s in
  let a' := local_gaze_stats s' in
  samples_received a' + valid_gaze_data a + missing_data a
  = samples_received a + valid_gaze_data a' + missing_data a'
  /\ samples_received a' + total_attempts a
     <= total_attempts a' + samples_received a
  /\ total_attempts a'
     <= total_attempts a + length (filter (fun e => is_poll e = true) es)
  /\ exists k,
       samples_received a' = samples_received a + k
       /\ script (send_socket (net s'))
          = drop k (script (send_socket (net s)))
       /\ sent (network_stats (net s))
          <= sent (network_stats (net s'))
          <= sent (network_stats (net s)) + k.
Proof.
  unfold run. revert s.
  induction es as [|e es IH]; intros s; simpl.
  - repeat split; try lia. exists 0. simpl. repeat split; lia.
  - specialize (IH (act MISSING_DATA e s)). cbv zeta in IH.
    destruct IH as (I1 & I2 & I3 & k2 & I4 & I5 & I6 & I7).
    destruct (act_account MISSING_DATA e s)
      as (F1 & F2 & F3 & k1 & F4 & F5 & F6 & F7).
    cbv zeta in *. split; [lia|]. split; [lia|]. split.
    + destruct (is_poll e) eqn:Ee.
      * rewrite filter_cons_True by exact Ee. simpl. lia.
      * rewrite filter_cons_False by (rewrite Ee; discriminate). lia.
    + exists (k1 + k2). rewrite I5, F5, drop_drop.
      repeat split; lia.
Qed.

Lemma receive_step_remote (gaze_info : dict) (g : globals) :
  gaze_info !! "computer" = Some (JStr "A") ->
  remote_gaze_data (receive_gaze_data_step (RecvData (Some (JObj gaze_info))) g)
  = gaze_info ∪ remote_gaze_data g
  /\ GAZE_SHARING_ACTIVE
       (receive_gaze_data_step (RecvData (Some (JObj gaze_info))) g)
     = GAZE_SHARING_ACTIVE g.
Proof.
  intros H. apply eq_str_true in H. simpl. now rewrite H.
Qed.

(** X20: the remote marker follows the last accepted sample.  After a
    datagram from 'A' that carries the fields valid, x and y, what
    [update_remote_gaze_display] does depends on that datagram alone,
    not on what was stored before: with sharing on and a true [valid]
    the marker goes to (x - width/2, height/2 - y), as Python computes
    them, when both subtractions succeed; when one of them raises (a
    value that is no number, an integer too large for a float), and
    always while sharing is off or [valid] is false, it stays where it
    was.  A datagram that is not accepted does not move it either way.
    This holds for whatever the arithmetic yields. *)
Theorem remote_marker_follows_last_sample (float : Type)
    (half : float -> float) (minus : json -> float -> option float)
    (minus_from : float -> json -> option float)
    (scn_width scn_height : float)
    (gaze_info : dict) (valid vx vy : json) (g : globals)
    (marker : float * float) :
  gaze_info !! "computer" = Some (JStr "A") ->
  gaze_info !! "valid" = Some valid ->
  gaze_info !! "x" = Some vx ->
  gaze_info !! "y" = Some vy ->
  update_remote_gaze_display float half minus minus_from scn_width scn_height
    (receive_gaze_data_step (RecvData (Some (JObj gaze_info))) g) marker
  = (if GAZE_SHARING_ACTIVE g && truthy valid
     then match minus vx (half scn_width),
                minus_from (half scn_height) vy with
          | Some gaze_x, Some gaze_y => (gaze_x, gaze_y)
          | _, _ => marker
          end
     else marker)
  /\ (forall r, from_A r = false ->
        update_remote_gaze_display float half minus minus_from
          scn_width scn_height (receive_gaze_data_step r g) marker
        = update_remote_gaze_display float half minus minus_from
            scn_width scn_height g marker).
Proof.
  intros HA Hvalid Hx Hy. split.
  - destruct (receive_step_remote gaze_info g HA) as [Hr Hf].
    unfold update_remote_gaze_display. rewrite Hr, Hf.
    rewrite !(lookup_union_Some_l _ _ _ _ Hvalid),
            !(lookup_union_Some_l _ _ _ _ Hx),
            !(lookup_union_Some_l _ _ _ _ Hy).
    simpl. destruct (GAZE_SHARING_ACTIVE g); [|reflexivity]. simpl.
    destruct (truthy valid); [|reflexivity].
    destruct (minus vx (half scn_width)); [|reflexivity].
    now destruct (minus_from (half scn_height) vy).
  - intros r Hr. unfold update_remote_gaze_display.
    destruct r as [| |[[]|]]; simpl in *; try reflexivity.
    now rewrite Hr.
Qed.

End DisplayFacts.

(** ** Responses, categories and images *)

Section StimuliFacts.
Import Coordinator Stimuli.

Lemma lower_ascii_idem (a : Ascii.ascii) :
  lower_ascii (lower_ascii a) = lower_ascii a.
Proof. destruct a as [[] [] [] [] [] [] [] []]; reflexivity. Qed.

Lemma lower_idem (s : string) : lower (lower s) = lower s.
Proof.
  induction s as [|a s IH]; simpl; [reflexivity|].
  now rewrite lower_ascii_idem, IH.
Qed.

(** X21: the response keys and the grid categories fit together.  The
    answer that the client stores for a key (its upper-case letter) is
    judged correct exactly for the category of that key; each of the four
    categories that [CATEGORY_MAP] can put in a cell is the category of
    exactly one key; and the judgement does not depend on the case of
    the letters. *)
Theorem keys_match_categories :
  (forall k cc, is_escape k = false ->
     exists category,
       key_category k = Some category
       /\ (evaluate_response (upper k) cc = true <-> cc = JStr category))
  /\ (forall num category, CATEGORY_MAP num = Some category ->
        exists k, is_escape k = false /\ key_category k = Some category
          /\ forall k', key_category k' = Some category -> k' = k)
  /\ (forall response cc,
        evaluate_response (lower response) cc = evaluate_response response cc).
Proof.
  split; [|split].
  - intros k cc Hk.
    destruct k; try discriminate; eexists; (split; [reflexivity|]);
      unfold evaluate_response;
      match goal with |- context [response_mapping ?x] =>
        let v := eval vm_compute in (response_mapping x) in
        change (response_mapping x) with v
      end;
      (destruct cc; split; try discriminate;
       [intros H; apply String.eqb_eq in H; now subst
       |intros [= <-]; apply String.eqb_refl]).
  - intros num category. unfold CATEGORY_MAP.
    destruct (Display.number (Some num)) as [q|]; [|discriminate].
    destruct (Qeq_bool q 0);
      [intros [= <-]; exists Kf; repeat split;
       intros []; try discriminate; reflexivity|].
    destruct (Qeq_bool q 1);
      [intros [= <-]; exists Kl; repeat split;
       intros []; try discriminate; reflexivity|].
    destruct (Qeq_bool q 2);
      [intros [= <-]; exists Kh; repeat split;
       intros []; try discriminate; reflexivity|].
    destruct (Qeq_bool q 3);
      [intros [= <-]; exists Kc; repeat split;
       intros []; try discriminate; reflexivity|].
    discriminate.
  - intros response cc. unfold evaluate_response. now rewrite lower_idem.
Qed.

Lemma response_mapping_letters (response : string) :
  response ∉ ["f"; "F"; "l"; "L"; "h"; "H"; "c"; "C"] ->
  response_mapping (lower response) = None.
Proof.
  intros Hnot.
  destruct response as [|a [|b s]]; [reflexivity| |].
  - destruct a as [[] [] [] [] [] [] [] []]; try reflexivity;
      exfalso; apply Hnot; rewrite !elem_of_cons; tauto.
  - unfold response_mapping. cbn [lower].
    assert (E : forall x y t u, String.eqb (String x (String y t))
                                  (String u EmptyString) = false).
    { intros x y t u. cbn [String.eqb]. now destruct (Ascii.eqb x u). }
    now rewrite !E.
Qed.

(** X22: an answer other than one of the letters f, l, h and c, in
    either case, is judged wrong for every category name, but right when
    the correct category is [None]: the lookup that finds nothing and the
    missing category are both [None], and equal. *)
Theorem unknown_answer_matches_no_category (response : string) :
  response ∉ ["f"; "F"; "l"; "L"; "h"; "H"; "c"; "C"] ->
  (forall category, evaluate_response response (JStr category) = false)
  /\ evaluate_response response JNull = true.
Proof.
  intros H. apply response_mapping_letters in H.
  unfold evaluate_response. now rewrite H.
Qed.

Lemma Forall_filter_keep {A : Type} (P : A -> Prop) (f : A -> bool)
    (l : list A) :
  Forall P l -> Forall P (filter (fun x => f x = true) l).
Proof.
  induction 1 as [|x l Hx Hl IH]; [constructor|].
  destruct (f x) eqn:Hf.
  - rewrite filter_cons_True by exact Hf. now constructor.
  - rewrite filter_cons_False by (rewrite Hf; discriminate). exact IH.
Qed.

Lemma candidates_not_placeholders exists_ sep folder_name :
  Forall (fun path => is_placeholder path = false)
    (filter (fun path => exists_ path = true) (candidates sep folder_name)).
Proof.
  apply Forall_filter_keep. unfold candidates. simpl. repeat constructor.
Qed.

Lemma prefix_append (s t : string) :
  String.prefix s (String.append s t) = true.
Proof.
  induction s as [|a s IH]; [now destruct t|].
  change (String.append (String a s) t) with (String a (String.append s t)).
  change (String.prefix (String a s) (String a (String.append s t)))
    with (if Ascii.ascii_dec a a
          then String.prefix s (String.append s t) else false).
  destruct (Ascii.ascii_dec a a); [exact IH|contradiction].
Qed.

Lemma placeholders_are_placeholders category_key :
  Forall (fun path => is_placeholder path = true) (placeholders category_key)
  /\ length (placeholders category_key) = 10.
Proof.
  split; [|reflexivity]. unfold placeholders. cbn [map seq].
  repeat (constructor; [apply prefix_append|]). constructor.
Qed.

Lemma load_category_fills exists_ sep category_key folder_name :
  let l := load_category exists_ sep category_key folder_name [] in
  l <> []
  /\ ((l = placeholders category_key
       /\ Forall (fun path => is_placeholder path = true) l)
      \/ (exists_ (join sep "stimuli" folder_name) = true
          /\ l = filter (fun path => exists_ path = true)
                   (candidates sep folder_name)
          /\ Forall (fun path => is_placeholder path = false) l)).
Proof.
  unfold load_category.
  destruct (exists_ (join sep "stimuli" folder_name)) eqn:Hf; simpl.
  - destruct (filter _ (candidates sep folder_name)) as [|x l] eqn:Hc.
    + split; [discriminate|]. left. split; [reflexivity|].
      apply placeholders_are_placeholders.
    + split; [discriminate|]. right. split; [reflexivity|].
      split; [reflexivity|]. rewrite <- Hc.
      apply candidates_not_placeholders.
  - split; [discriminate|]. left. split; [reflexivity|].
    apply placeholders_are_placeholders.
Qed.

(** X23: whatever is on disk, [load_all_images] leaves every category
    with at least one image to choose from.  Starting from the empty
    lists of the module, each category ends up either with the files
    [<folder>-0.png] to [<folder>-9.png] that exist in its folder, in
    that order, or, when the folder is missing or holds none of them,
    with its ten placeholders; never with a mixture, so that testing one
    path of a category for the placeholder prefix tells about all. *)
Theorem load_all_images_fills_every_category (exists_ : string -> bool)
    (sep : string) :
  exists images,
    load_all_images exists_ sep no_images = Some images
    /\ forall category_key folder_name,
         (category_key, folder_name) ∈ category_folders ->
         exists l,
           images !! category_key = Some l
           /\ l <> []
           /\ ((l = placeholders category_key
                /\ Forall (fun path => is_placeholder path = true) l)
               \/ (exists_ (join sep "stimuli" folder_name) = true
                   /\ l = filter (fun path => exists_ path = true)
                            (candidates sep folder_name)
                   /\ Forall (fun path => is_placeholder path = false) l)).
Proof.
  eexists. split; [reflexivity|].
  intros category_key folder_name Hin.
  unfold category_folders in Hin.
  repeat (apply elem_of_cons in Hin as [[= -> ->]|Hin]);
    [| | | |now apply elem_of_nil in Hin];
    eexists; (split; [now simplify_map_eq|]);
    apply load_category_fills.
Qed.

End StimuliFacts.

(** ** The theorems at work *)

Section Examples.
Import Inputs.

Lemma send_gaze_data_gated_witness :
  Gaze.send_all calls g_off = g_off
  /\ wire (Gaze.send_socket (Gaze.send_all calls g_off))
     = wire (Gaze.send_socket g_off)
  /\ script (Gaze.send_socket (Gaze.send_all calls g_off))
     = script (Gaze.send_socket g_off)
  /\ Gaze.sent (Gaze.network_stats (Gaze.send_all calls g_off))
     = Gaze.sent (Gaze.network_stats g_off).
Proof. apply (send_gaze_data_gated calls g_off). reflexivity. Defined.

(** The stale sample, received after the fresh one and with sharing off,
    is what is stored. *)
Lemma receive_gaze_last_wins_witness :
  stale !! "computer" = Some (JStr "A")
  /\ Gaze.remote_gaze_data
       (Gaze.receive_gaze_data
          ([RecvData (Some (JObj fresh))] ++ [RecvData (Some (JObj stale))])
          (Gaze.set_sharing false g_off))
     = stale.
Proof.
  split; [reflexivity|].
  apply (receive_gaze_last_wins false [RecvData (Some (JObj fresh))] g_off
           stale); [reflexivity|].
  apply (bool_decide_unpack _). vm_compute. exact I.
Defined.

Lemma receive_gaze_only_from_A_witness :
  Gaze.from_A (RecvData (Some (JObj own))) = false
  /\ Gaze.remote_gaze_data
       (Gaze.receive_gaze_data_step (RecvData (Some (JObj own))) g_off)
     = Gaze.remote_gaze_data g_off.
Proof.
  split; [reflexivity|].
  apply (receive_gaze_only_from_A (RecvData (Some (JObj own))) g_off).
  reflexivity.
Defined.



(** All three attempts raise: the ping is queued, no pong leaves. *)
Lemma ping_without_pong :
  Sync.rx_recv ping = RecvData (Some (JObj (control "ping" 1 ∅)))
  /\ control "ping" 1 ∅ !! "type" = Some (JStr "ping")
  /\ Sync.sent_of_type "pong" (Sync.receive_messages_step ping c_bad) = []
  /\ length (Sync.sent_of_type "pong" (Sync.receive_messages_step ping c_bad))
     <> S (length (Sync.sent_of_type "pong" c_bad)).
Proof.
  split; [reflexivity|]. split; [reflexivity|].
  split; [vm_compute; reflexivity|]. vm_compute. discriminate.
Qed.

Lemma ping_pong_at_most_once_witness :
  Sync.sent_of_type "pong" (Sync.receive_messages_step ping c_ok)
  = Sync.sent_of_type "pong" c_ok
    ++ [Sync.envelope "pong" 3 (Some Sync.pong_data)].
Proof.
  apply (ping_pong_at_most_once ping (control "ping" 1 ∅) c_ok healthy);
    reflexivity.
Defined.

Lemma decoded_message_enqueued_witness :
  Sync.message_queue (Sync.receive_messages_step ping c_ok)
  = Sync.message_queue c_ok ++ [Sync.stamp ping (control "ping" 1 ∅)].
Proof.
  apply (decoded_message_enqueued ping (control "ping" 1 ∅) c_ok).
  reflexivity.
Defined.

Lemma first_response_recorded_once_witness :
  Coordinator.race
    (Coordinator.flow_state (Coordinator.response_loop [late_key] answered))
  = Coordinator.race answered.
Proof.
  exact (proj1 (first_response_recorded_once [late_key] answered) eq_refl).
Defined.

(** The key is taken as the client's response all the same. *)
Example late_key_is_recorded :
  let st := Coordinator.flow_state
              (Coordinator.response_loop [late_key] answered) in
  Coordinator.client_response st = JStr "F"
  /\ Coordinator.first_responder st = JStr "server"
  /\ Coordinator.first_response st = JStr "H"
  /\ Coordinator.target_square_color st = "green".
Proof. vm_compute. repeat split. Qed.

(** The start never comes: the function returns, and no [end_experiment]
    was ever handed to the socket. *)
Lemma start_timeout_without_end_experiment :
  Sync.wait_for_message "start_experiment" 60
    (Coordinator.start_time silent) (Coordinator.start_sched silent)
    (Sync.start_client (Coordinator.sync_socket silent) Sync.new)
  = Some (None, c_ok)
  /\ Coordinator.run_synchronized_experiment silent g_off
     = Coordinator.Leave Coordinator.Return
         (Coordinator.set_sync_client c_ok (Coordinator.initial g_off))
  /\ Sync.attempts "end_experiment"
       (Coordinator.sync_client
          (Coordinator.flow_state
             (Coordinator.run_synchronized_experiment silent g_off)))
     = []
  /\ Sync.log
       (Coordinator.sync_client
          (Coordinator.flow_state
             (Coordinator.run_synchronized_experiment silent g_off)))
     = [].
Proof. vm_compute. repeat split. Qed.

Lemma start_timeout_returns_witness :
  Coordinator.run_synchronized_experiment silent g_off
  = Coordinator.Leave Coordinator.Return
      (Coordinator.set_sync_client c_ok (Coordinator.initial g_off)).
Proof.
  apply (start_timeout_returns silent g_off c_ok); [reflexivity|].
  vm_compute. reflexivity.
Defined.

(** Feedback arrives while sharing is on: the stage switches it off at
    once and leaves it off; the trial is logged. *)
Example stage_feedback_switches_sharing_off :
  Coordinator.sharing shown = true
  /\ Coordinator.sharing
       (Coordinator.feedback_entry feedback_data 10
          (Coordinator.set_sharing false shown)) = false
  /\ exists st,
       Coordinator.stage_feedback feedback_msg 10 [0%Q; (1 # 2)%Q; 1%Q] shown
       = Coordinator.Next st
       /\ Coordinator.sharing st = false
       /\ length (Coordinator.data_log st) = 1.
Proof.
  split; [reflexivity|]. split; [reflexivity|].
  eexists. split; [vm_compute; reflexivity|]. split; reflexivity.
Qed.

(** With a socket that raises three times, three attempts are made and the
    result is false. *)
Lemma send_message_retries_witness :
  (Sync.send_message "ack_start" None 3 5 c_bad).1 = false
  <-> (forall i, i < 3 -> script failing !! i = Some Raise).
Proof.
  pose proof (send_message_retries "ack_start" None 3 5 c_bad) as [_ H].
  simpl in H. apply H.
Defined.

End Examples.

(** ** The theorems on whole runs at work *)

Section RunExamples.
Import Inputs RunInputs.

Lemma get_message_first_arrival_witness :
  (Sync.get_message two_arrivals c_ok).1 = head (SyncRun.enqueued two_arrivals)
  /\ Sync.message_queue (Sync.get_message two_arrivals c_ok).2
     = tail (SyncRun.enqueued two_arrivals).
Proof.
  exact (get_message_first_arrival two_arrivals c_ok eq_refl eq_refl).
Defined.

Lemma receive_loop_pongs_witness :
  exists s' new,
    Sync.socket (Sync._receive_messages two_arrivals c_ok) = Some s'
    /\ wire s' = wire healthy ++ new
    /\ new `sublist_of` SyncRun.pongs two_arrivals
    /\ (Sync.running c_ok = true -> script healthy = [] ->
        new = SyncRun.pongs two_arrivals /\ script s' = []).
Proof.
  exact (receive_loop_pongs two_arrivals c_ok healthy eq_refl).
Defined.

(** The awaited message is at the head of the queue, and is not taken. *)
Lemma wait_for_message_no_time_witness :
  head (Sync.message_queue c_queued) = Some m_ack
  /\ Sync.wait_for_message "stage_sync_ack" 0 5 [at_time 5] c_queued
     = Some (None, c_queued).
Proof.
  split; [reflexivity|].
  apply (wait_for_message_no_time "stage_sync_ack" 0 5 (at_time 5) [] c_queued).
  - unfold Qle. simpl. lia.
  - unfold Qle. simpl. lia.
Defined.

(** Two turns on a queue of three. *)
Lemma wait_for_message_rotates_witness :
  exists c',
    Sync.wait_for_message "start_experiment" 30 0
      ([at_time 1; at_time 2] ++ at_time 31 :: []) c_queued
    = Some (None, c')
    /\ Sync.message_queue c'
       = rotate (length [at_time 1; at_time 2]) (Sync.message_queue c_queued)
    /\ Sync.socket c' = Sync.socket c_queued.
Proof.
  assert (Hq : Forall (fun x : dict =>
                         eq_str (x !! "type") "start_experiment" = false)
                 (Sync.message_queue c_queued))
    by (repeat constructor).
  assert (He : Forall (fun tk => Sync.in_time 30 0 tk = true
                                 /\ Sync.quiet tk = true)
                 [at_time 1; at_time 2])
    by (repeat constructor).
  exact (wait_for_message_rotates "start_experiment" 30 0
           [at_time 1; at_time 2] (at_time 31) [] c_queued Hq He eq_refl).
Defined.

Lemma wait_for_message_returns_known_witness :
  m_feedback !! "type" = Some (JStr "stage_feedback")
  /\ m_feedback ∈ Sync.message_queue c_queued
                   ++ SyncRun.arrivals [at_time 1; at_time 2].
Proof.
  assert (H : Sync.wait_for_message "stage_feedback" 30 0
                [at_time 1; at_time 2] c_queued
              = Some (Some m_feedback, c_waited))
    by (vm_compute; reflexivity).
  exact (wait_for_message_returns_known "stage_feedback" 30 0
           [at_time 1; at_time 2] c_queued c_waited m_feedback H).
Defined.

Lemma sent_message_reaches_waiter_witness :
  let sent := Sync.send_message "response_update" (Some answer) 3 1 c_ok in
  (sent.1 = true
   /\ exists s', Sync.socket sent.2 = Some s'
        /\ wire s' = wire healthy
                     ++ [Sync.envelope "response_update" 1 (Some answer)])
  /\ exists m c',
       Sync.wait_for_message "response_update" 30 0 (answer_tick :: []) c_ok
       = Some (Some m, c')
       /\ m !! "type" = Some (JStr "response_update")
       /\ m !! "timestamp" = Some (JNum 1)
       /\ m !! "data" = Some (JObj (default ∅ (Some answer)))
       /\ m !! "sender_addr" = Some (Sync.rx_addr answer_arrives)
       /\ m !! "receipt_time" = Some (JNum (Sync.rx_time answer_arrives))
       /\ Sync.message_queue c' = [].
Proof.
  assert (Hh : head (script healthy) <> Some Raise) by discriminate.
  assert (Hn : 0 < 3) by lia.
  exact (sent_message_reaches_waiter "response_update" (Some answer) 3 1
           c_ok healthy c_ok answer_arrives answer_tick [] 30 0
           eq_refl Hh Hn eq_refl eq_refl eq_refl eq_refl eq_refl).
Defined.

Lemma feedback_logs_the_message_witness :
  exists feedback_data target,
    Coordinator.data_of feedback_msg = Some feedback_data
    /\ Coordinator.target_position shown = Some target
    /\ Coordinator.data_log after_feedback
       = Coordinator.data_log shown
         ++ [ {| Coordinator.log_trial := Coordinator.current_trial shown;
                 Coordinator.log_target_position := target;
                 Coordinator.log_correct_category :=
                   Coordinator.get_or feedback_data "correct_category"
                     (JStr "");
                 Coordinator.log_client_response :=
                   Coordinator.client_response shown;
                 Coordinator.log_client_rt := Coordinator.client_rt shown;
                 Coordinator.log_first_responder :=
                   Coordinator.get_or feedback_data "first_responder"
                     (JStr "");
                 Coordinator.log_first_response :=
                   Coordinator.get_or feedback_data "first_response"
                     (JStr "");
                 Coordinator.log_trial_score :=
                   Coordinator.get_or feedback_data "trial_score" (JNum 0);
                 Coordinator.log_total_score :=
                   Coordinator.get_or feedback_data "total_score" (JNum 0) |} ]
    /\ Coordinator.first_responder after_feedback
       = Coordinator.get_or feedback_data "first_responder" (JStr "")
    /\ Coordinator.first_response after_feedback
       = Coordinator.get_or feedback_data "first_response" (JStr "").
Proof.
  assert (H : Coordinator.stage_feedback feedback_msg 10
                [0%Q; (1 # 2)%Q; 1%Q] shown
              = Coordinator.Next after_feedback)
    by (vm_compute; reflexivity).
  exact (feedback_logs_the_message feedback_msg 10 [0%Q; (1 # 2)%Q; 1%Q]
           shown after_feedback H).
Defined.

Lemma sharing_off_at_the_end_witness :
  match Coordinator.run_synchronized_experiment silent g_off with
  | Coordinator.Next st
  | Coordinator.Leave Coordinator.Return st
  | Coordinator.Leave Coordinator.Terminate st =>
      Coordinator.sharing st = false
  | _ => True
  end.
Proof.
  exact (proj1 (sharing_off_at_the_end silent g_off eq_refl)).
Defined.

Lemma response_stage_completes_settled_witness :
  Coordinator.received_server after_response = true
  /\ Coordinator.received_client after_response = true
  /\ (exists k, Coordinator.is_escape k = false
        /\ Coordinator.client_response after_response
           = JStr (Coordinator.upper k))
  /\ (Coordinator.first_responder after_response = JStr "client"
      \/ Coordinator.first_responder after_response = JStr "server")
  /\ Coordinator.target_square_color after_response = "green"
  /\ (Coordinator.first_responder after_response = JStr "client" ->
      Coordinator.first_response after_response
      = Coordinator.client_response after_response)
  /\ Coordinator.sharing after_response = false.
Proof.
  assert (H : Coordinator.stage_response 10 [both_answer] shown
              = Coordinator.Next after_response)
    by (vm_compute; reflexivity).
  exact (response_stage_completes_settled 10 [both_answer] shown
           after_response H).
Defined.

(** A second press of F, after the answer. *)
Lemma client_answers_once_witness :
  let st' := Coordinator.flow_state
               (Coordinator.response_loop [late_key] pressed) in
  Coordinator.received_client st' = true
  /\ Coordinator.client_response st' = Coordinator.client_response pressed
  /\ Coordinator.client_rt st' = Coordinator.client_rt pressed
  /\ Sync.attempts "response_update" (Coordinator.sync_client st')
     = Sync.attempts "response_update" (Coordinator.sync_client pressed).
Proof.
  exact (client_answers_once [late_key] pressed eq_refl).
Defined.

Lemma remote_marker_follows_last_sample_witness :
  Display.update_remote_gaze_display Q exact_half exact_minus exact_minus_from
    1024%Q 768%Q
    (Gaze.receive_gaze_data_step (RecvData (Some (JObj fresh)))
       (Gaze.set_sharing true g_off)) (0, 0)%Q
  = (if Gaze.GAZE_SHARING_ACTIVE (Gaze.set_sharing true g_off)
        && Display.truthy (JBool true)
     then match exact_minus (JNum 100) (exact_half 1024%Q),
                exact_minus_from (exact_half 768%Q) (JNum 200) with
          | Some gaze_x, Some gaze_y => (gaze_x, gaze_y)
          | _, _ => (0, 0)%Q
          end
     else (0, 0)%Q).
Proof.
  exact (proj1 (remote_marker_follows_last_sample Q exact_half exact_minus
                  exact_minus_from 1024%Q 768%Q fresh
                  (JBool true) (JNum 100) (JNum 200)
                  (Gaze.set_sharing true g_off) (0, 0)%Q
                  eq_refl eq_refl eq_refl eq_refl)).
Defined.

Lemma unknown_answer_matches_no_category_witness :
  (forall category,
     Stimuli.evaluate_response "x" (JStr category) = false)
  /\ Stimuli.evaluate_response "x" JNull = true.
Proof.
  apply (unknown_answer_matches_no_category "x").
  apply (bool_decide_unpack _). vm_compute. exact I.
Defined.

End RunExamples.
